(** * The todo store and the todo session of the planner application

  A shallow embedding of
  - the by-id route handlers [GET], [PATCH] and [DELETE] of
    [/api/todos/[id]] (server side, over a Prisma table),
  - the [TodoProvider] context (client side: [fetchTodos], [addTodo],
    [updateTodo], [deleteTodo], [toggleComplete], [refreshTodos]),
  - the handlers of the [TodoItem] and [TodoForm] components that call
    the context,
  followed by the properties the specification states about them. *)

From Stdlib Require Import ZArith Ascii String List Bool Lia.
From stdpp Require Import base option list gmap strings sorting pretty.

Local Open Scope Z_scope.
Local Open Scope string_scope.

(** ** JavaScript primitives used by the sources *)

Module Js.

(** Strings are sequences of code units; the embedding keeps the code
    units below 256.  Among those, [String.prototype.trim] strips
    TAB, LF, VT, FF, CR, SPACE and NBSP. *)
Definition isWhiteSpace (c : ascii) : bool :=
  match nat_of_ascii c with
  | 9%nat | 10%nat | 11%nat | 12%nat | 13%nat | 32%nat | 160%nat => true
  | _ => false
  end.

Fixpoint trimStart (s : string) : string :=
  match s with
  | EmptyString => EmptyString
  | String c rest => if isWhiteSpace c then trimStart rest else s
  end.

Fixpoint trimEnd (s : string) : string :=
  match s with
  | EmptyString => EmptyString
  | String c rest =>
      match trimEnd rest with
      | EmptyString => if isWhiteSpace c then EmptyString else String c EmptyString
      | kept => String c kept
      end
  end.

Definition trim (s : string) : string := trimEnd (trimStart s).

(** Truthiness of a string: only the empty string is falsy. *)
Definition truthy (s : string) : bool :=
  match s with
  | EmptyString => false
  | String _ _ => true
  end.

(** [s || null] on a string. *)
Definition orNull (s : string) : option string :=
  if truthy s then Some s else None.

Fixpoint blank (s : string) : bool :=
  match s with
  | EmptyString => true
  | String c rest => isWhiteSpace c && blank rest
  end.

(** What an [async] function settles to, and what a [throw] carries. *)
Inductive Exn : Type :=
| Error (message : string)
| TypeError (message : string)
| SyntaxError (message : string).

Inductive Settled : Type :=
| Fulfilled
| Rejected (reason : Exn).

End Js.

(** ** The todo store: [/api/todos/[id]]

    The table is a finite map from primary keys to rows, and each handler
    runs to its response before the next request is served.  The session
    resolver and the connection to the database are taken to answer; what a
    request itself can make throw is kept, and ends in the handler's
    catch-all 500: a body that does not parse, an id or a text the database
    refuses, a value the table does not take. *)

Module Store.

(** A row of the [todo] table, as [prisma.todo.findUnique] returns it. *)
Record Row : Type := mkRow {
  id : string;
  title : string;
  description : option string;
  completed : bool;
  userId : string;
  createdAt : Z;
  updatedAt : Z
}.

(** The table, keyed by its primary key. *)
Abbreviation Table := (gmap string Row).

(** [getServerSession]: [null], or a session whose [user] may be absent. *)
Record SessionUser : Type := mkUser { user_id : string }.
Record ServerSession : Type := mkSession { user : option SessionUser }.

(** The guard [!session || !session.user], read the other way round. *)
Definition signedIn (session : option ServerSession) : option SessionUser :=
  match session with
  | None => None
  | Some s => user s
  end.

(** A text of PostgreSQL holds no U+0000: the database refuses a query
    that carries one, and the client call throws. *)
Fixpoint hasNul (s : string) : bool :=
  match s with
  | EmptyString => false
  | String c rest => Ascii.eqb c Ascii.zero || hasNul rest
  end.

(** A JSON value found under one of the keys of a request body.  [JSet v]
    is the object [{"set": v}]; [JOther] stands for numbers, arrays and
    every other object. *)
Inductive JVal : Type :=
| JNull
| JBool (b : bool)
| JStr (s : string)
| JSet (v : JVal)
| JOther.

(** The three keys [PATCH] destructures from [await request.json()];
    [None] is [undefined] (key absent). *)
Record PatchJson : Type := mkPatch {
  p_title : option JVal;
  p_description : option JVal;
  p_completed : option JVal
}.

Inductive ResBody : Type :=
| ErrorJson (error : string)
| MessageJson (message : string)
| TodoJson (todo : Row)
| TodosJson (todos : list Row).

Record Response : Type := mkResponse { status : Z; body : ResBody }.

(** [NextResponse.json(x)] answers 200 unless a status is given. *)
Definition json (b : ResBody) : Response := mkResponse 200 b.
Definition jsonStatus (b : ResBody) (st : Z) : Response := mkResponse st b.

(** [prisma.todo.findUnique({ where: { id } })]: the call throws for an id
    the database refuses, and otherwise yields [null] or the row.  No row is
    ever stored under a refused id. *)
Inductive Lookup : Type :=
| LookupThrows
| NoRow
| FoundRow (r : Row).

Definition findUnique (key : string) (db : Table) : Lookup :=
  match db !! key with
  | Some r => FoundRow r
  | None => if hasNul key then LookupThrows else NoRow
  end.

(** Modelled from the spec: a column of the Create body.  [description] is
    the nullable text of the data model. *)
Definition columnDescription (old : option string) (v : option JVal)
  : option (option string) :=
  match v with
  | None => Some old
  | Some JNull => Some None
  | Some (JStr s) => Some (Some s)
  | Some _ => None
  end.

(** Modelled from the spec: a column of the Create body.  [completed] is
    the boolean flag of the data model. *)
Definition columnCompleted (old : bool) (v : option JVal) : option bool :=
  match v with
  | None => Some old
  | Some (JBool b) => Some b
  | Some _ => None
  end.

(** What a key of the [data] of an update asks to write: the value itself,
    or the [v] of [{set: v}]. *)
Definition written (v : JVal) : JVal :=
  match v with
  | JSet w => w
  | _ => v
  end.

(** A text the database takes. *)
Definition textOf (v : JVal) : option string :=
  match v with
  | JStr s => if hasNul s then None else Some s
  | _ => None
  end.

Definition nullable (d : option string) : JVal :=
  match d with
  | None => JNull
  | Some s => JStr s
  end.

(** Modelled from the spec: the Prisma schema of the [todo] table is not
    among the sources; the types of the columns are those of the spec's data
    model.  [title] is a required text: a key left out keeps the old title, a
    text (given as such or under [set]) replaces it, and any other value
    makes the client call throw ([None]). *)
Definition updateTitle (old : string) (v : option JVal) : option string :=
  match v with
  | None => Some old
  | Some v => textOf (written v)
  end.

(** Modelled from the spec: [description] is a nullable text, so [null] is
    written as well as a text. *)
Definition updateDescription (old : option string) (v : option JVal)
  : option (option string) :=
  match v with
  | None => Some old
  | Some v =>
      match written v with
      | JNull => Some None
      | w => Some <$> textOf w
      end
  end.

(** Modelled from the spec: [completed] is a boolean. *)
Definition updateCompleted (old : bool) (v : option JVal) : option bool :=
  match v with
  | None => Some old
  | Some v =>
      match written v with
      | JBool b => Some b
      | _ => None
      end
  end.

(** A [data] object without a key. *)
Definition emptyData (data : PatchJson) : bool :=
  match p_title data, p_description data, p_completed data with
  | None, None, None => true
  | _, _, _ => false
  end.

(** Modelled from the spec: [prisma.todo.update({ where: { id }, data })]
    over the missing schema.  With no key in [data] nothing is written and
    the row comes back as it is.  Otherwise the row under [key] takes the
    columns named in [data], keeps [id], [userId] and [createdAt], and has its
    [updatedAt] refreshed to [now].  The result is [None] when the call
    throws. *)
Definition prismaUpdate (now : Z) (key : string) (data : PatchJson)
    (db : Table) : option (Row * Table) :=
  match db !! key with
  | None => None
  | Some old =>
      if emptyData data then Some (old, db)
      else
        match updateTitle (title old) (p_title data),
              updateDescription (description old) (p_description data),
              updateCompleted (completed old) (p_completed data) with
        | Some t, Some d, Some c =>
            let row := mkRow (id old) t d c (userId old) (createdAt old) now in
            Some (row, <[key := row]> db)
        | _, _, _ => None
        end
  end.

(** The [data] object of [PATCH]: each of the three keys is spread in
    exactly when it is not [undefined]. *)
Definition patchData (title description completed : option JVal) : PatchJson :=
  mkPatch title description completed.

(** [GET /api/todos/[id]] *)
Definition GET (session : option ServerSession) (key : string) (db : Table)
  : Response :=
  match signedIn session with
  | None => jsonStatus (ErrorJson "You must be signed in to view this todo") 401
  | Some u =>
      match findUnique key db with
      | LookupThrows => jsonStatus (ErrorJson "Failed to fetch todo") 500
      | NoRow => jsonStatus (ErrorJson "Todo not found") 404
      | FoundRow todo =>
          if bool_decide (userId todo ≠ user_id u)
          then jsonStatus
                 (ErrorJson "You do not have permission to view this todo") 403
          else json (TodoJson todo)
      end
  end.

(** [PATCH /api/todos/[id]].  [reqBody] is what [await request.json()]
    yields: [None] when it throws or when destructuring its result
    throws; [now] is the instant at which the update is written. *)
Definition PATCH (session : option ServerSession) (now : Z) (key : string)
    (reqBody : option PatchJson) (db : Table) : Response * Table :=
  match signedIn session with
  | None =>
      (jsonStatus (ErrorJson "You must be signed in to update a todo") 401, db)
  | Some u =>
      match findUnique key db with
      | LookupThrows => (jsonStatus (ErrorJson "Failed to update todo") 500, db)
      | NoRow => (jsonStatus (ErrorJson "Todo not found") 404, db)
      | FoundRow existingTodo =>
          if bool_decide (userId existingTodo ≠ user_id u)
          then (jsonStatus
                  (ErrorJson "You do not have permission to update this todo")
                  403, db)
          else
            match reqBody with
            | None => (jsonStatus (ErrorJson "Failed to update todo") 500, db)
            | Some b =>
                match prismaUpdate now key
                        (patchData (p_title b) (p_description b) (p_completed b))
                        db with
                | None =>
                    (jsonStatus (ErrorJson "Failed to update todo") 500, db)
                | Some (updatedTodo, db') => (json (TodoJson updatedTodo), db')
                end
            end
      end
  end.

(** [DELETE /api/todos/[id]] *)
Definition DELETE (session : option ServerSession) (key : string) (db : Table)
  : Response * Table :=
  match signedIn session with
  | None =>
      (jsonStatus (ErrorJson "You must be signed in to delete a todo") 401, db)
  | Some u =>
      match findUnique key db with
      | LookupThrows => (jsonStatus (ErrorJson "Failed to delete todo") 500, db)
      | NoRow => (jsonStatus (ErrorJson "Todo not found") 404, db)
      | FoundRow existingTodo =>
          if bool_decide (userId existingTodo ≠ user_id u)
          then (jsonStatus
                  (ErrorJson "You do not have permission to delete this todo")
                  403, db)
          else (json (MessageJson "Todo deleted successfully"), delete key db)
      end
  end.

(** How a key of the body relates the old and the new value of a column:
    a key left out keeps the old value; a key present writes its value, given
    as such or under [set]. *)
Definition titleApplied (v : option JVal) (old new : string) : Prop :=
  match v with
  | None => new = old
  | Some v => written v = JStr new
  end.

Definition descriptionApplied (v : option JVal) (old new : option string) : Prop :=
  match v with
  | None => new = old
  | Some v => written v = nullable new
  end.

Definition completedApplied (v : option JVal) (old new : bool) : Prop :=
  match v with
  | None => new = old
  | Some v => written v = JBool new
  end.

(** A request to the by-id route, and the route serving a sequence of
    them one after the other. *)
Inductive ItemRequest : Type :=
| ReqGET (session : option ServerSession) (key : string)
| ReqPATCH (session : option ServerSession) (now : Z) (key : string)
    (reqBody : option PatchJson)
| ReqDELETE (session : option ServerSession) (key : string).

Definition serveItem (r : ItemRequest) (db : Table) : Response * Table :=
  match r with
  | ReqGET session key => (GET session key db, db)
  | ReqPATCH session now key reqBody => PATCH session now key reqBody db
  | ReqDELETE session key => DELETE session key db
  end.

Fixpoint serveItems (rs : list ItemRequest) (db : Table) : Table :=
  match rs with
  | [] => db
  | r :: rest => serveItems rest (snd (serveItem r db))
  end.

(** The session a request to the by-id route came with. *)
Definition requester (r : ItemRequest) : option ServerSession :=
  match r with
  | ReqGET session _ => session
  | ReqPATCH session _ _ _ => session
  | ReqDELETE session _ => session
  end.

(** Every row sits under its own [id]. *)
Definition keyedById (db : Table) : Prop :=
  forall key r, db !! key = Some r -> id r = key.

(** Two bodies in one: a key of [later] wins over the same key of
    [earlier]. *)
Definition overriding (later earlier : option JVal) : option JVal :=
  match later with
  | Some v => Some v
  | None => earlier
  end.

Definition mergePatch (later earlier : PatchJson) : PatchJson :=
  mkPatch (overriding (p_title later) (p_title earlier))
    (overriding (p_description later) (p_description earlier))
    (overriding (p_completed later) (p_completed earlier)).

(** *** The collection route [/api/todos]

    Its handlers are not among the sources; they are modelled from the
    specification's description of List and Create. *)

(** The keys of a Create body, [{title, description?, completed?}]. *)
Record CreateJson : Type := mkCreate {
  c_title : option JVal;
  c_description : option JVal;
  c_completed : option JVal
}.

(** Modelled from the spec: newest first, by creation time. *)
Definition newerFirst (a b : Row) : Prop := (createdAt b <= createdAt a)%Z.

#[global] Instance newerFirst_dec : RelDecision newerFirst.
Proof. intros a b. unfold newerFirst. apply Z.le_dec. Defined.

Definition ownedBy (uid : string) (r : Row) : Prop := userId r = uid.

#[global] Instance ownedBy_dec uid r : Decision (ownedBy uid r).
Proof. unfold ownedBy. apply _. Defined.

(** Modelled from the spec: the handler of [GET /api/todos] is missing from
    the sources.  List "returns all Todos owned by the requesting identity,
    ordered by recency (newest first)" and "fails with Unauthorized if no
    valid session". *)
Definition LIST (session : option ServerSession) (db : Table) : Response :=
  match signedIn session with
  | None => jsonStatus (ErrorJson "Unauthorized") 401
  | Some u =>
      json (TodosJson
              (merge_sort newerFirst
                 (filter (ownedBy (user_id u)) (map_to_list db).*2)))
  end.

(** Modelled from the spec: the handler of [POST /api/todos] is missing from
    the sources.  Create "accepts {title, description?, completed?}; rejects
    with ValidationError if title is empty/missing" (also when it is
    whitespace-only, or when the payload is malformed); "assigns id, ownerId,
    timestamps; returns the created record"; [completed] "defaults to false
    at creation".  [newId] is the identifier the persistence layer generates
    and [now] the instant of creation; a row is never written over an
    existing identifier. *)
Definition CREATE (session : option ServerSession) (now : Z) (newId : string)
    (reqBody : option CreateJson) (db : Table) : Response * Table :=
  match signedIn session with
  | None => (jsonStatus (ErrorJson "Unauthorized") 401, db)
  | Some u =>
      match reqBody with
      | None => (jsonStatus (ErrorJson "ValidationError") 400, db)
      | Some b =>
          match c_title b with
          | Some (JStr t) =>
              if Js.blank t
              then (jsonStatus (ErrorJson "ValidationError") 400, db)
              else
                match columnDescription None (c_description b),
                      columnCompleted false (c_completed b) with
                | Some d, Some c =>
                    match db !! newId with
                    | Some _ =>
                        (jsonStatus (ErrorJson "Failed to create todo") 500, db)
                    | None =>
                        let row := mkRow newId t d c (user_id u) now now in
                        (jsonStatus (TodoJson row) 201, <[newId := row]> db)
                    end
                | _, _ => (jsonStatus (ErrorJson "ValidationError") 400, db)
                end
          | _ => (jsonStatus (ErrorJson "ValidationError") 400, db)
          end
      end
  end.

End Store.

(** ** The todo session: the [TodoProvider] context *)

Module Session.

Import Js.

Record Todo : Type := mkTodo {
  id : string;
  title : string;
  description : option string;
  completed : bool;
  createdAt : string;
  updatedAt : string
}.

(** [Omit<Todo, 'id' | 'createdAt' | 'updatedAt'>] *)
Record TodoData : Type := mkTodoData {
  d_title : string;
  d_description : option string;
  d_completed : bool
}.

(** [Partial<Todo>]: [None] is a key left out. *)
Record Updates : Type := mkUpdates {
  u_id : option string;
  u_title : option string;
  u_description : option (option string);
  u_completed : option bool;
  u_createdAt : option string;
  u_updatedAt : option string
}.

(** The calls to [fetch], indexed by what the caller reads from the body of
    a successful response:
    - [GetTodos]: [fetch('/api/todos')];
    - [PostTodo b]: [fetch('/api/todos', {method: 'POST', body: b})];
    - [PatchTodo i b]: [fetch(`/api/todos/${i}`, {method: 'PATCH', body: b})];
    - [DeleteTodo i]: [fetch(`/api/todos/${i}`, {method: 'DELETE'})], whose
      body is never read. *)
Inductive Request : Type -> Type :=
| GetTodos : Request (list Todo)
| PostTodo (body : TodoData) : Request Todo
| PatchTodo (key : string) (body : Updates) : Request Todo
| DeleteTodo (key : string) : Request unit.

Inductive Method : Type := HttpGET | HttpPOST | HttpPATCH | HttpDELETE.

Inductive ReqJson : Type :=
| DataJson (d : TodoData)
| UpdatesJson (u : Updates).

(** The arguments of the [fetch] call behind a [Request]. *)
Record FetchArgs : Type := mkFetchArgs {
  url : string;
  method : Method;
  contentType : option string;
  reqBody : option ReqJson
}.

Definition fetchArgs {A : Type} (r : Request A) : FetchArgs :=
  match r with
  | GetTodos => mkFetchArgs "/api/todos" HttpGET None None
  | PostTodo b =>
      mkFetchArgs "/api/todos" HttpPOST (Some "application/json")
        (Some (DataJson b))
  | PatchTodo key b =>
      mkFetchArgs ("/api/todos/" +:+ key) HttpPATCH (Some "application/json")
        (Some (UpdatesJson b))
  | DeleteTodo key =>
      mkFetchArgs ("/api/todos/" +:+ key) HttpDELETE None None
  end.

(** What the caller observes of a [fetch]: the promise rejects; or it
    resolves to a response whose [ok] is false; or to one whose [ok] is
    true, [json] being what [await response.json()] settles to. *)
Inductive FetchResult (A : Type) : Type :=
| Rejects (e : Exn)
| RespondsNotOk (status : Z)
| RespondsOk (json : Exn + A).
Arguments Rejects {A} e.
Arguments RespondsNotOk {A} status.
Arguments RespondsOk {A} json.

(** The state of the provider, with the console it logs to. *)
Record State : Type := mkState {
  todos : list Todo;
  loading : bool;
  error : option string;
  console : list (string * Exn)
}.

Definition initial : State := mkState [] true None [].

Definition setTodos (f : list Todo -> list Todo) (st : State) : State :=
  mkState (f (todos st)) (loading st) (error st) (console st).
Definition setLoading (b : bool) (st : State) : State :=
  mkState (todos st) b (error st) (console st).
Definition setError (e : option string) (st : State) : State :=
  mkState (todos st) (loading st) e (console st).
Definition consoleError (label : string) (err : Exn) (st : State) : State :=
  mkState (todos st) (loading st) (error st) (console st ++ [(label, err)]).

(** [if (!response.ok) throw new Error(msg); await response.json()]:
    the value bound in the [try] block, or the exception that leaves it. *)
Definition jsonOrThrow {A : Type} (msg : string) (res : FetchResult A) : Exn + A :=
  match res with
  | Rejects e => inl e
  | RespondsNotOk _ => inl (Error msg)
  | RespondsOk j => j
  end.

(** [if (!response.ok) throw new Error(msg)] with the body left unread. *)
Definition okOrThrow {A : Type} (msg : string) (res : FetchResult A) : Exn + unit :=
  match res with
  | Rejects e => inl e
  | RespondsNotOk _ => inl (Error msg)
  | RespondsOk _ => inr tt
  end.

Section Provider.

Context {W : Type}.
Variable fetch : forall A : Type, Request A -> W -> FetchResult A * W.

Definition fetchTodos (st : State) (w : W) : Settled * State * W :=
  let st := setLoading true st in
  let (res, w) := fetch _ GetTodos w in
  let st :=
    match jsonOrThrow "Failed to fetch todos" res with
    | inr data => setError None (setTodos (fun _ => data) st)
    | inl err =>
        setError (Some "Failed to load todos. Please try again later.")
          (consoleError "Error fetching todos:" err st)
    end in
  (Fulfilled, setLoading false st, w).

(** [useEffect(() => { fetchTodos(); }, [])] *)
Definition mount (w : W) : Settled * State * W := fetchTodos initial w.

Definition addTodo (todoData : TodoData) (st : State) (w : W)
  : Settled * State * W :=
  let (res, w) := fetch _ (PostTodo todoData) w in
  match jsonOrThrow "Failed to create todo" res with
  | inr newTodo =>
      (Fulfilled, setError None (setTodos (fun prevTodos => newTodo :: prevTodos) st), w)
  | inl err =>
      (Rejected err,
       setError (Some "Failed to create todo. Please try again.")
         (consoleError "Error creating todo:" err st), w)
  end.

Definition replaceById (key : string) (updatedTodo : Todo) (prevTodos : list Todo)
  : list Todo :=
  (fun todo => if bool_decide (id todo = key) then updatedTodo else todo)
    <$> prevTodos.

Definition removeById (key : string) (prevTodos : list Todo) : list Todo :=
  filter (fun todo => id todo <> key) prevTodos.

Definition updateTodo (key : string) (updates : Updates) (st : State) (w : W)
  : Settled * State * W :=
  let (res, w) := fetch _ (PatchTodo key updates) w in
  match jsonOrThrow "Failed to update todo" res with
  | inr updatedTodo =>
      (Fulfilled, setError None (setTodos (replaceById key updatedTodo) st), w)
  | inl err =>
      (Rejected err,
       setError (Some "Failed to update todo. Please try again.")
         (consoleError "Error updating todo:" err st), w)
  end.

Definition deleteTodo (key : string) (st : State) (w : W)
  : Settled * State * W :=
  let (res, w) := fetch _ (DeleteTodo key) w in
  match okOrThrow "Failed to delete todo" res with
  | inr _ => (Fulfilled, setError None (setTodos (removeById key) st), w)
  | inl err =>
      (Rejected err,
       setError (Some "Failed to delete todo. Please try again.")
         (consoleError "Error deleting todo:" err st), w)
  end.

Definition toggleComplete (key : string) (completed : bool) (st : State) (w : W)
  : Settled * State * W :=
  let (res, w) :=
    fetch _ (PatchTodo key
               (mkUpdates None None None (Some (negb completed)) None None)) w in
  match jsonOrThrow "Failed to update todo" res with
  | inr updatedTodo =>
      (Fulfilled, setError None (setTodos (replaceById key updatedTodo) st), w)
  | inl err =>
      (Rejected err,
       setError (Some "Failed to update todo. Please try again.")
         (consoleError "Error updating todo:" err st), w)
  end.

Definition refreshTodos (st : State) (w : W) : Settled * State * W :=
  fetchTodos st w.

End Provider.

(** The ways a call to the store fails for its caller, with the exception
    that leaves the [try] block: [fetch] rejects with [e] (network error), or
    the response is not [ok] and [new Error(msg)] is thrown. *)
Inductive StoreFails {A : Type} (msg : string) : FetchResult A -> Exn -> Prop :=
| fails_network (e : Exn) : StoreFails msg (Rejects e) e
| fails_status (status : Z) : StoreFails msg (RespondsNotOk status) (Error msg).

(** A [fetch] that also records the arguments of each call, in order. *)
Definition recording {W : Type}
    (fetch : forall A : Type, Request A -> W -> FetchResult A * W)
    (A : Type) (req : Request A) (wl : W * list FetchArgs)
  : FetchResult A * (W * list FetchArgs) :=
  let (res, w) := fetch A req wl.1 in
  (res, (w, (wl.2 ++ [fetchArgs req])%list)).

(** The four mutating operations of the context, as one type. *)
Inductive Mutation : Type :=
| Add (todoData : TodoData)
| Update (key : string) (updates : Updates)
| Delete (key : string)
| Toggle (key : string) (completed : bool).

Definition run {W : Type}
    (fetch : forall A : Type, Request A -> W -> FetchResult A * W)
    (m : Mutation) : State -> W -> Settled * State * W :=
  match m with
  | Add todoData => addTodo fetch todoData
  | Update key updates => updateTodo fetch key updates
  | Delete key => deleteTodo fetch key
  | Toggle key completed => toggleComplete fetch key completed
  end.

End Session.

(** ** The components that call the session *)

Module TodoItem.

Import Js Session.

(** The [useState] cells of a [TodoItem]. *)
Record Local : Type := mkLocal {
  isEditing : bool;
  editedTitle : string;
  editedDescription : string;
  isSubmitting : bool;
  error : option string
}.

Definition orEmpty (d : option string) : string :=
  match d with
  | Some s => if truthy s then s else ""
  | None => ""
  end.

Definition initialLocal (todo : Todo) : Local :=
  mkLocal false (title todo) (orEmpty (description todo)) false None.

Definition setIsEditing (b : bool) (l : Local) : Local :=
  mkLocal b (editedTitle l) (editedDescription l) (isSubmitting l) (error l).
Definition setIsSubmitting (b : bool) (l : Local) : Local :=
  mkLocal (isEditing l) (editedTitle l) (editedDescription l) b (error l).
Definition setLocalError (e : option string) (l : Local) : Local :=
  mkLocal (isEditing l) (editedTitle l) (editedDescription l) (isSubmitting l) e.

Section Handlers.

Context {W : Type}.
Variable fetch : forall A : Type, Request A -> W -> FetchResult A * W.

Definition handleSave (todo : Todo) (l : Local) (st : State) (w : W)
  : Local * State * W :=
  if negb (truthy (trim (editedTitle l)))
  then (setLocalError (Some "Title cannot be empty") l, st, w)
  else
    let l := setLocalError None (setIsSubmitting true l) in
    match updateTodo fetch (id todo)
            (mkUpdates None (Some (trim (editedTitle l)))
               (Some (orNull (trim (editedDescription l)))) None None None)
            st w with
    | (Fulfilled, st, w) => (setIsSubmitting false (setIsEditing false l), st, w)
    | (Rejected err, st, w) =>
        (setIsSubmitting false
           (setLocalError (Some "Failed to update todo. Please try again.") l),
         consoleError "Error updating todo:" err st, w)
    end.

(** [onChange={() => toggleComplete(todo.id, todo.completed)}] *)
Definition onCheckboxChange (todo : Todo) (st : State) (w : W)
  : Settled * State * W :=
  toggleComplete fetch (id todo) (completed todo) st w.

(** [onClick={() => deleteTodo(todo.id)}] *)
Definition onDeleteClick (todo : Todo) (st : State) (w : W)
  : Settled * State * W :=
  deleteTodo fetch (id todo) st w.

End Handlers.

End TodoItem.

Module TodoForm.

Import Js Session.

(** The [useState] cells of the [TodoForm]. *)
Record Local : Type := mkLocal {
  title : string;
  description : string;
  isSubmitting : bool;
  error : option string;
  success : option string
}.

Definition initialLocal : Local := mkLocal "" "" false None None.

Section Handlers.

Context {W : Type}.
Variable fetch : forall A : Type, Request A -> W -> FetchResult A * W.

(** [handleSubmit], up to the timer that later clears [success]. *)
Definition handleSubmit (l : Local) (st : State) (w : W) : Local * State * W :=
  if negb (truthy (trim (title l)))
  then (mkLocal (title l) (description l) (isSubmitting l)
          (Some "Title is required") (success l), st, w)
  else
    match addTodo fetch
            (mkTodoData (trim (title l)) (orNull (trim (description l))) false)
            st w with
    | (Fulfilled, st, w) =>
        (mkLocal "" "" false None (Some "Todo added successfully!"), st, w)
    | (Rejected err, st, w) =>
        (mkLocal (title l) (description l) false
           (Some "Failed to create todo. Please try again.") (success l),
         consoleError "Error creating todo:" err st, w)
    end.

End Handlers.

End TodoForm.

(** ** The session talking to the store *)

Module System.

Import Js.

(** What accompanies a request on the server: the session the cookie
    resolves to, the instant of handling, and the identifier the persistence
    layer would give a new row. *)
Record Env : Type := mkEnv {
  session : option Store.ServerSession;
  now : Z;
  newId : string
}.

Section Wire.

(** [Date.prototype.toISOString], through which [NextResponse.json]
    renders the two timestamps. *)
Variable toISOString : Z -> string.

(** A row as the client reads it from a JSON body. *)
Definition wire (r : Store.Row) : Session.Todo :=
  Session.mkTodo (Store.id r) (Store.title r) (Store.description r)
    (Store.completed r) (toISOString (Store.createdAt r))
    (toISOString (Store.updatedAt r)).

Definition jsonOfDescription (d : option string) : Store.JVal :=
  match d with
  | None => Store.JNull
  | Some s => Store.JStr s
  end.

(** [JSON.stringify(updates)] read back by [request.json()] and
    destructured by [PATCH]. *)
Definition patchJsonOf (u : Session.Updates) : Store.PatchJson :=
  Store.mkPatch (Store.JStr <$> Session.u_title u)
    (jsonOfDescription <$> Session.u_description u)
    (Store.JBool <$> Session.u_completed u).

Definition createJsonOf (d : Session.TodoData) : Store.CreateJson :=
  Store.mkCreate (Some (Store.JStr (Session.d_title d)))
    (Some (jsonOfDescription (Session.d_description d)))
    (Some (Store.JBool (Session.d_completed d))).

Definition isOk (status : Z) : bool := ((200 <=? status) && (status <=? 299))%Z.

(** The body of a successful response read as a todo, as a list of todos. *)
Definition todoOf (b : Store.ResBody) : Exn + Session.Todo :=
  match b with
  | Store.TodoJson r => inr (wire r)
  | _ => inl (TypeError "unexpected body")
  end.

Definition todosOf (b : Store.ResBody) : Exn + list Session.Todo :=
  match b with
  | Store.TodosJson rs => inr (map wire rs)
  | _ => inl (TypeError "unexpected body")
  end.

Definition observe {A : Type} (read : Store.ResBody -> Exn + A)
    (r : Store.Response) : Session.FetchResult A :=
  if isOk (Store.status r)
  then Session.RespondsOk (read (Store.body r))
  else Session.RespondsNotOk (Store.status r).

(** [fetch] against the store: each request is routed to its handler. *)
Definition serve (env : Env) (A : Type) (req : Session.Request A)
    (db : Store.Table) : Session.FetchResult A * Store.Table :=
  match req in Session.Request T return Session.FetchResult T * Store.Table with
  | Session.GetTodos => (observe todosOf (Store.LIST (session env) db), db)
  | Session.PostTodo b =>
      let (r, db') :=
        Store.CREATE (session env) (now env) (newId env) (Some (createJsonOf b)) db in
      (observe todoOf r, db')
  | Session.PatchTodo key u =>
      let (r, db') :=
        Store.PATCH (session env) (now env) key (Some (patchJsonOf u)) db in
      (observe todoOf r, db')
  | Session.DeleteTodo key =>
      let (r, db') := Store.DELETE (session env) key db in
      (observe (fun _ => inr tt) r, db')
  end.

End Wire.

(** An update of the client without any of the three keys the store
    reads. *)
Definition emptyUpdates (u : Session.Updates) : bool :=
  match Session.u_title u, Session.u_description u, Session.u_completed u with
  | None, None, None => true
  | _, _, _ => false
  end.

(** The texts of an update are ones the database takes. *)
Definition storableUpdates (u : Session.Updates) : bool :=
  negb (from_option Store.hasNul false (Session.u_title u))
  && negb (match Session.u_description u with
           | Some (Some d) => Store.hasNul d
           | _ => false
           end).

(** The row an update of the client leaves under a key. *)
Definition updatedRow (now : Z) (u : Session.Updates) (old : Store.Row) : Store.Row :=
  if emptyUpdates u then old
  else
    Store.mkRow (Store.id old)
      (default (Store.title old) (Session.u_title u))
      (default (Store.description old) (Session.u_description u))
      (default (Store.completed old) (Session.u_completed u))
      (Store.userId old) (Store.createdAt old) now.

(** The list of the session shows exactly the rows of [uid] in the table,
    as the client reads them. *)
Definition inSync (toISOString : Z -> string) (uid : string)
    (st : Session.State) (db : Store.Table) : Prop :=
  forall t,
    t ∈ Session.todos st <->
    exists key r, db !! key = Some r /\ Store.userId r = uid
                  /\ t = wire toISOString r.

End System.

(** ** The list component and the pages that mount it *)

Module TodoList.

Import Js Session.

(** What [TodoList] returns: the loading line, the error box, the empty
    notice, or one [TodoItem] per todo, keyed by [todo.id]. *)
Inductive View : Type :=
| LoadingView
| ErrorView (message : string)
| EmptyView
| ItemsView (items : list Todo).

Definition listOrEmpty (ts : list Todo) : View :=
  match ts with
  | [] => EmptyView
  | _ :: _ => ItemsView ts
  end.

Definition render (st : State) : View :=
  if loading st then LoadingView
  else
    match error st with
    | Some message =>
        if truthy message then ErrorView message else listOrEmpty (todos st)
    | None => listOrEmpty (todos st)
    end.

End TodoList.

Module Screen.

Import Js Session.

(** Whether the [TodoItem] keyed [key] is rendered: [TodoList] returns the
    items and one of them has that key.  An item that is not rendered is
    unmounted, and its [useState] cells are gone. *)
Definition mounted (st : State) (key : string) : bool :=
  match TodoList.render st with
  | TodoList.ItemsView items => bool_decide (key ∈ id <$> items)
  | _ => false
  end.

Section Save.

Context {W : Type}.
Variable fetch : forall A : Type, Request A -> W -> FetchResult A * W.

(** [handleSave] on the screen: the cells of the item afterwards, when it
    is still rendered. *)
Definition save (todo : Todo) (l : TodoItem.Local) (st : State) (w : W)
  : option TodoItem.Local * State * W :=
  let '(l', st', w') := TodoItem.handleSave fetch todo l st w in
  (if mounted st' (id todo) then Some l' else None, st', w').

End Save.

End Screen.

Module Pages.

Import Js Session.

(** [status] of [useSession]. *)
Inductive AuthStatus : Type := StatusLoading | Authenticated | Unauthenticated.

(** [useTodos]: the value of the nearest provider, or the throw. *)
Definition useTodos {C : Type} (context : option C) : Exn + C :=
  match context with
  | None => inl (Error "useTodos must be used within a TodoProvider")
  | Some c => inr c
  end.

(** What a page returns: the loading screen, the todo content (form and
    list), [null], or the exception thrown while rendering the content. *)
Inductive PageView : Type :=
| PageLoading
| PageContent
| PageNull
| PageThrows (e : Exn).

(** The content of a page: [TodoForm] and [TodoList] both start with
    [useTodos()]. *)
Definition content {C : Type} (context : option C) : PageView :=
  match useTodos context with
  | inl e => PageThrows e
  | inr _ => PageContent
  end.

(** The redirect effect of both pages. *)
Definition redirect (callbackUrl : string) (mounted : bool) (status : AuthStatus)
  : option string :=
  match mounted, status with
  | true, Unauthenticated => Some ("/auth/signin?callbackUrl=" +:+ callbackUrl)
  | _, _ => None
  end.

(** [Home] ([/]): the content is wrapped in a [TodoProvider] of its own. *)
Definition Home (mounted : bool) (status : AuthStatus) : PageView :=
  match mounted, status with
  | false, _ => PageLoading
  | true, StatusLoading => PageLoading
  | true, Authenticated => content (Some tt)
  | true, Unauthenticated => PageNull
  end.

Definition HomeRedirect (mounted : bool) (status : AuthStatus) : option string :=
  redirect "/" mounted status.

(** [TodoPage] ([/todos]): the content is rendered in the context the page
    is given, [ambient]. *)
Definition TodoPage {C : Type} (ambient : option C) (mounted : bool)
    (status : AuthStatus) : PageView :=
  match mounted, status with
  | false, _ => PageLoading
  | true, StatusLoading => PageLoading
  | true, Authenticated => content ambient
  | true, Unauthenticated => PageNull
  end.

Definition TodoPageRedirect (mounted : bool) (status : AuthStatus) : option string :=
  redirect "/todos" mounted status.

Section Visit.

Context {W : Type}.
Variable fetch : forall A : Type, Request A -> W -> FetchResult A * W.

(** One render of [Home]: when it returns the content, the provider it
    mounts runs its load effect. *)
Definition visitHome (mounted : bool) (status : AuthStatus) (w : W)
  : PageView * option State * W :=
  match Home mounted status with
  | PageContent =>
      let '(_, st, w) := mount fetch w in (PageContent, Some st, w)
  | v => (v, None, w)
  end.

End Visit.

End Pages.

(** ** Sample worlds *)

Module Scenario.

Import Js.

Definition alice : option Store.ServerSession :=
  Some (Store.mkSession (Some (Store.mkUser "alice"))).
Definition bob : option Store.ServerSession :=
  Some (Store.mkSession (Some (Store.mkUser "bob"))).

Definition milk : Store.Row := Store.mkRow "t1" "Buy milk" None false "alice" 1 1.
Definition bread : Store.Row := Store.mkRow "t0" "Bake bread" None true "bob" 0 0.

Definition aliceTable : Store.Table := {[ "t1" := milk ]}.
Definition bobTable : Store.Table := {[ "t0" := bread ]}.

(** An instant rendered as its number; stands in for [toISOString]. *)
Definition stamp (z : Z) : string := pretty z.

Definition shownMilk : Session.Todo := System.wire stamp milk.

Definition loaded : Session.State := Session.mkState [shownMilk] false None [].

Definition asAlice (now : Z) (newId : string) : System.Env :=
  System.mkEnv alice now newId.
Definition signedOut : System.Env := System.mkEnv None 9 "t9".

(** No network: every [fetch] rejects. *)
Definition offline (A : Type) (req : Session.Request A) (w : unit)
  : Session.FetchResult A * unit :=
  (Session.Rejects (TypeError "Failed to fetch"), w).

(** A cache in the way: the list is always answered with the same
    todos, and nothing else gets through. *)
Definition cached (ts : list Session.Todo) (A : Type) (req : Session.Request A)
    (w : unit) : Session.FetchResult A * unit :=
  match req in Session.Request T return Session.FetchResult T * unit with
  | Session.GetTodos => (Session.RespondsOk (inr ts), w)
  | _ => (Session.Rejects (TypeError "Failed to fetch"), w)
  end.

(** An id with U+0000 in it. *)
Definition nulId : string := String Ascii.zero "t1".

(** A proxy in the way: every response is ok, with a body that is not
    JSON. *)
Definition garbled (A : Type) (req : Session.Request A) (w : unit)
  : Session.FetchResult A * unit :=
  (Session.RespondsOk (inl (SyntaxError "Unexpected token <")), w).

Definition tea : Store.Row := Store.mkRow "t7" "Make tea" None false "alice" 3 3.

(** Alice's table after she added a todo in another tab. *)
Definition twoTabsTable : Store.Table := <[ "t7" := tea ]> aliceTable.

End Scenario.

(** * Properties *)

(** ** Trimming *)

Section JsFacts.

Import Js.

Lemma trimStart_blank s : blank s = true -> trimStart s = "".
Proof.
  induction s as [|c s IH]; simpl; [done|].
  intros [Hc Hs]%andb_true_iff. rewrite Hc. auto.
Qed.

Lemma trimStart_not_blank s :
  blank s = false ->
  exists c rest, trimStart s = String c rest /\ isWhiteSpace c = false.
Proof.
  induction s as [|c s IH]; simpl; [done|].
  destruct (isWhiteSpace c) eqn:Hc; simpl; eauto.
Qed.

Lemma trimEnd_keeps_head c rest :
  isWhiteSpace c = false -> exists kept, trimEnd (String c rest) = String c kept.
Proof. intros Hc. simpl. rewrite Hc. destruct (trimEnd rest); eauto. Qed.

(** [!s.trim()] holds exactly of the strings made of whitespace only. *)
Lemma truthy_trim s : truthy (trim s) = negb (blank s).
Proof.
  unfold trim. destruct (blank s) eqn:Hs; simpl.
  - by rewrite trimStart_blank.
  - destruct (trimStart_not_blank s Hs) as (c & rest & -> & Hc).
    by destruct (trimEnd_keeps_head c rest Hc) as [kept ->].
Qed.

Lemma blank_trim s : blank s = false -> blank (trim s) = false.
Proof.
  intros Hs. unfold trim.
  destruct (trimStart_not_blank s Hs) as (c & rest & -> & Hc).
  destruct (trimEnd_keeps_head c rest Hc) as [kept ->]. simpl. by rewrite Hc.
Qed.

Example trim_both_ends : trim "  Buy  milk  " = "Buy  milk".
Proof. reflexivity. Qed.

Example trim_blank : trim "   " = "".
Proof. reflexivity. Qed.

End JsFacts.

(** ** The by-id route *)

Section StoreFacts.

Import Store Scenario.

Implicit Types (db : Table) (key : string) (session : option ServerSession).

Lemma findUnique_found key db r :
  db !! key = Some r -> findUnique key db = FoundRow r.
Proof. intros Hr. unfold findUnique. by rewrite Hr. Qed.

Lemma findUnique_absent key db :
  db !! key = None ->
  findUnique key db = if hasNul key then LookupThrows else NoRow.
Proof. intros Hr. unfold findUnique. by rewrite Hr. Qed.

Lemma findUnique_FoundRow key db r :
  findUnique key db = FoundRow r -> db !! key = Some r.
Proof.
  unfold findUnique. destruct (db !! key); [by intros [= ->]|].
  by destruct (hasNul key).
Qed.

Lemma written_text v s : textOf (written v) = Some s -> written v = JStr s.
Proof.
  destruct (written v) as [| |t| |]; simpl; try done.
  destruct (hasNul t); [done|]. by intros [= ->].
Qed.

Lemma updateTitle_applied old v new :
  updateTitle old v = Some new -> titleApplied v old new.
Proof.
  destruct v as [v|]; simpl; [apply written_text | by intros [= ->]].
Qed.

Lemma updateDescription_applied old v new :
  updateDescription old v = Some new -> descriptionApplied v old new.
Proof.
  destruct v as [v|]; simpl; [|by intros [= ->]].
  destruct (written v) as [| |t| |]; simpl; try done.
  - by intros [= <-].
  - destruct (hasNul t); [done|]. by intros [= <-].
Qed.

Lemma updateCompleted_applied old v new :
  updateCompleted old v = Some new -> completedApplied v old new.
Proof.
  destruct v as [v|]; simpl; [|by intros [= ->]].
  destruct (written v); simpl; try done. by intros [= ->].
Qed.

(** What [prisma.todo.update] returns when it returns. *)
Lemma prismaUpdate_row now key data db row db' :
  prismaUpdate now key data db = Some (row, db') ->
  exists old,
    db !! key = Some old /\ db' = <[key := row]> db
    /\ titleApplied (p_title data) (title old) (title row)
    /\ descriptionApplied (p_description data) (description old) (description row)
    /\ completedApplied (p_completed data) (completed old) (completed row)
    /\ id row = id old /\ userId row = userId old
    /\ createdAt row = createdAt old
    /\ updatedAt row = (if emptyData data then updatedAt old else now).
Proof.
  unfold prismaUpdate. destruct (db !! key) as [old|] eqn:Hold; [|discriminate].
  destruct (emptyData data) eqn:Hempty.
  - intros [= <- <-]. exists old. rewrite insert_id by done.
    unfold emptyData in Hempty.
    destruct (p_title data), (p_description data), (p_completed data);
      try discriminate.
    by repeat split.
  - destruct (updateTitle _ _) as [t|] eqn:Ht; [|discriminate].
    destruct (updateDescription _ _) as [d|] eqn:Hd; [|discriminate].
    destruct (updateCompleted _ _) as [c|] eqn:Hc; [|discriminate].
    intros [= <- <-]. exists old. simpl.
    split; [done|]. split; [done|].
    split; [by apply updateTitle_applied|].
    split; [by apply updateDescription_applied|].
    split; [by apply updateCompleted_applied|]. done.
Qed.

Lemma prismaUpdate_lookup now key data db row db' :
  prismaUpdate now key data db = Some (row, db') ->
  exists old, db !! key = Some old /\ db' = <[key := row]> db.
Proof. intros (old & ? & ? & _)%prismaUpdate_row. eauto. Qed.

(** The two ways a PATCH ends: refused or failed, with the table as it
    was; or answered 200 for the owner, with the row written. *)
Lemma PATCH_cases session now key reqBody db :
  (exists code msg,
      PATCH session now key reqBody db = (mkResponse code (ErrorJson msg), db)
      /\ code <> 200 /\ (400 < code)%Z)
  \/ (exists u b old new,
        signedIn session = Some u /\ reqBody = Some b
        /\ db !! key = Some old /\ userId old = user_id u
        /\ prismaUpdate now key b db = Some (new, <[key := new]> db)
        /\ PATCH session now key reqBody db
           = (mkResponse 200 (TodoJson new), <[key := new]> db)).
Proof.
  unfold PATCH.
  destruct (signedIn session) as [u|]; [|left; eexists _, _; by repeat split].
  unfold findUnique. destruct (db !! key) as [old|] eqn:Hold.
  2:{ destruct (hasNul key); left; eexists _, _; by repeat split. }
  case_bool_decide as Hown; [left; eexists _, _; by repeat split|].
  destruct reqBody as [b|]; [|left; eexists _, _; by repeat split].
  change (patchData (p_title b) (p_description b) (p_completed b))
    with (mkPatch (p_title b) (p_description b) (p_completed b)).
  replace (mkPatch (p_title b) (p_description b) (p_completed b)) with b
    by (by destruct b).
  destruct (prismaUpdate now key b db) as [[new db']|] eqn:Hup;
    [|left; eexists _, _; by repeat split].
  right. pose proof Hup as (old' & _ & ->)%prismaUpdate_lookup.
  exists u, b, old, new. by repeat split.
Qed.

Lemma DELETE_cases session key db :
  (exists code msg,
      DELETE session key db = (mkResponse code (ErrorJson msg), db)
      /\ code <> 200 /\ (400 < code)%Z)
  \/ (exists u old msg,
        signedIn session = Some u /\ db !! key = Some old
        /\ userId old = user_id u
        /\ DELETE session key db = (mkResponse 200 (MessageJson msg), delete key db)).
Proof.
  unfold DELETE.
  destruct (signedIn session) as [u|]; [|left; eexists _, _; by repeat split].
  unfold findUnique. destruct (db !! key) as [old|] eqn:Hold.
  2:{ destruct (hasNul key); left; eexists _, _; by repeat split. }
  case_bool_decide as Hown; [left; eexists _, _; by repeat split|].
  right. exists u, old. eexists. by repeat split.
Qed.

(** No request to the by-id route brings an absent key into the table. *)
Lemma serveItem_absent r db key :
  db !! key = None -> (serveItem r db).2 !! key = None.
Proof.
  intros Habs. destruct r as [s k | s now k b | s k]; simpl; [done | |].
  - destruct (PATCH_cases s now k b db)
      as [(code & msg & -> & _) | (u & b' & old & new & _ & _ & Hold & _ & _ & ->)];
      [done|]. simpl.
    rewrite lookup_insert_ne; [done|]. intros ->. congruence.
  - destruct (DELETE_cases s k db)
      as [(code & msg & -> & _) | (u & old & msg & _ & Hold & _ & ->)]; [done|].
    simpl. destruct (decide (k = key)) as [->|Hne].
    + apply lookup_delete_eq.
    + by rewrite lookup_delete_ne.
Qed.

Lemma serveItems_absent rs db key :
  db !! key = None -> serveItems rs db !! key = None.
Proof.
  revert db. induction rs as [|r rs IH]; intros db Habs; simpl; [done|].
  apply IH. by apply serveItem_absent.
Qed.

Lemma DELETE_ok session key db resp db' :
  DELETE session key db = (resp, db') -> status resp = 200 ->
  db' = delete key db.
Proof.
  destruct (DELETE_cases session key db)
    as [(code & msg & -> & Hcode & _) | (u & old & msg & _ & _ & _ & ->)].
  - intros [= <- <-]. done.
  - by intros [= <- <-].
Qed.

(** C1, as the handlers have it.  Under a valid session, Get, Update and
    Delete of an id without a record answer 404 when the database takes the
    id, and 500 when it refuses the id, leaving the table alone either way;
    of a record owned by somebody else they answer 403, leaving the table
    alone as well; the answer to a foreign record differs from the answer
    given were the record not there; and once a Delete has succeeded, every
    later Get of that id, an id the database takes, answers 404, whatever
    requests the by-id route has served in between. *)
Theorem by_id_not_found_and_forbidden session u key db now reqBody :
  signedIn session = Some u ->
  (db !! key = None -> hasNul key = false ->
     status (GET session key db) = 404
     /\ (exists b, PATCH session now key reqBody db = (mkResponse 404 b, db))
     /\ (exists b, DELETE session key db = (mkResponse 404 b, db)))
  /\ (db !! key = None -> hasNul key = true ->
     status (GET session key db) = 500
     /\ (exists b, PATCH session now key reqBody db = (mkResponse 500 b, db))
     /\ (exists b, DELETE session key db = (mkResponse 500 b, db)))
  /\ (forall r, db !! key = Some r -> userId r <> user_id u ->
        status (GET session key db) = 403
        /\ (exists b, PATCH session now key reqBody db = (mkResponse 403 b, db))
        /\ (exists b, DELETE session key db = (mkResponse 403 b, db))
        /\ GET session key db <> GET session key (delete key db))
  /\ (forall resp db', DELETE session key db = (resp, db') -> status resp = 200 ->
        hasNul key = false ->
        forall rs session' u', signedIn session' = Some u' ->
          status (GET session' key (serveItems rs db')) = 404).
Proof.
  intros Hu. split; [|split; [|split]].
  - intros Habs Hkey. unfold GET, PATCH, DELETE.
    rewrite Hu, (findUnique_absent _ _ Habs), Hkey. simpl. eauto.
  - intros Habs Hkey. unfold GET, PATCH, DELETE.
    rewrite Hu, (findUnique_absent _ _ Habs), Hkey. simpl. eauto.
  - intros r Hr Hforeign. unfold GET, PATCH, DELETE.
    rewrite Hu, (findUnique_found _ _ _ Hr), bool_decide_eq_true_2 by done.
    rewrite findUnique_absent by apply lookup_delete_eq.
    simpl. repeat split; eauto. by destruct (hasNul key).
  - intros resp db' Hdel Hok Hkey rs session' u' Hu'.
    apply DELETE_ok in Hdel as ->; [|done].
    unfold GET. rewrite Hu'.
    rewrite findUnique_absent.
    + by rewrite Hkey.
    + apply serveItems_absent, lookup_delete_eq.
Qed.

(** The route at work on a table with one todo of alice's, asked by bob. *)
Lemma by_id_not_found_and_forbidden_witness :
  let bob := Some (mkSession (Some (mkUser "bob"))) in
  let alice := Some (mkSession (Some (mkUser "alice"))) in
  let db : Table := {[ "t1" := mkRow "t1" "Buy milk" None false "alice" 1 1 ]} in
  signedIn bob = Some (mkUser "bob")
  /\ status (GET bob "t2" db) = 404
  /\ status (GET bob nulId db) = 500
  /\ status (GET bob "t1" db) = 403
  /\ status (DELETE alice "t1" db).1 = 200
  /\ status (GET alice "t1"
               (serveItems [ReqPATCH alice 5 "t1" (Some (mkPatch None None None))]
                  (DELETE alice "t1" db).2)) = 404.
Proof.
  intros bob alice db.
  pose proof (by_id_not_found_and_forbidden bob (mkUser "bob") "t2" db 0 None
                eq_refl) as (Hmissing & _ & _ & _).
  pose proof (by_id_not_found_and_forbidden bob (mkUser "bob") nulId db 0 None
                eq_refl) as (_ & Hrefused & _ & _).
  pose proof (by_id_not_found_and_forbidden bob (mkUser "bob") "t1" db 0 None
                eq_refl) as (_ & _ & Hforeign & _).
  pose proof (by_id_not_found_and_forbidden alice (mkUser "alice") "t1" db 0 None
                eq_refl) as (_ & _ & _ & Hgone).
  split; [reflexivity|].
  split; [exact (proj1 (Hmissing eq_refl eq_refl))|].
  split; [exact (proj1 (Hrefused eq_refl eq_refl))|].
  split.
  { refine (proj1 (Hforeign _ eq_refl _)). simpl. discriminate. }
  split; [reflexivity|].
  exact (Hgone _ _ eq_refl eq_refl eq_refl _ alice (mkUser "alice") eq_refl).
Defined.

(** C1, as stated, fails.  No record has the id made of U+0000 and "t1";
    alice, signed in, asks for it, and the three handlers answer 500, not
    404. *)
Lemma refused_id_is_answered_500 :
  aliceTable !! nulId = None
  /\ signedIn alice = Some (mkUser "alice")
  /\ status (GET alice nulId aliceTable) = 500
  /\ status (PATCH alice 3 nulId (Some (mkPatch None None (Some (JBool true))))
               aliceTable).1 = 500
  /\ status (DELETE alice nulId aliceTable).1 = 500
  /\ ~ status (GET alice nulId aliceTable) = 404.
Proof. vm_compute. repeat split; discriminate. Qed.

(** C8, as the handler has it.  A successful Update read a body; the row
    it returns and stores under the same key takes the value of each of
    [title], [description], [completed] present in the body, given as such or
    under [set], and keeps the old value of each one absent; [id], [userId]
    and [createdAt] are the old ones; [updatedAt] is the instant of the
    update when the body has one of the three keys, and the old one when it
    has none; and no other row changes. *)
Theorem PATCH_applies_only_provided_fields session now key reqBody db resp db' :
  PATCH session now key reqBody db = (resp, db') ->
  status resp = 200 ->
  exists b old new,
    reqBody = Some b /\ db !! key = Some old
    /\ body resp = TodoJson new /\ db' = <[key := new]> db
    /\ titleApplied (p_title b) (title old) (title new)
    /\ descriptionApplied (p_description b) (description old) (description new)
    /\ completedApplied (p_completed b) (completed old) (completed new)
    /\ id new = id old /\ userId new = userId old
    /\ createdAt new = createdAt old
    /\ updatedAt new = (if emptyData b then updatedAt old else now)
    /\ (forall k, k <> key -> db' !! k = db !! k).
Proof.
  destruct (PATCH_cases session now key reqBody db)
    as [(code & msg & -> & Hcode & _)
       | (u & b & old & new & _ & -> & Hold & _ & Hup & ->)].
  - intros [= <- <-] Hok. done.
  - intros [= <- <-] _.
    apply prismaUpdate_row in Hup
      as (old' & Hold' & _ & Ht & Hd & Hc & Hi & Hu & Hcr & Hupd).
    rewrite Hold in Hold'. injection Hold' as <-.
    exists b, old, new. repeat (split; [done|]).
    intros k Hk. by rewrite lookup_insert_ne.
Qed.

(** A body that only sets [completed], applied to a todo of alice's. *)
Lemma PATCH_applies_only_provided_fields_witness :
  let alice := Some (mkSession (Some (mkUser "alice"))) in
  let db : Table := {[ "t1" := mkRow "t1" "Buy milk" (Some "2l") false "alice" 1 1 ]} in
  let reqBody := Some (mkPatch None None (Some (JSet (JBool true)))) in
  status (PATCH alice 7 "t1" reqBody db).1 = 200
  /\ exists new,
       body (PATCH alice 7 "t1" reqBody db).1 = TodoJson new
       /\ title new = "Buy milk" /\ description new = Some "2l"
       /\ completed new = true /\ createdAt new = 1 /\ updatedAt new = 7.
Proof.
  intros alice db reqBody.
  assert (Hrun : PATCH alice 7 "t1" reqBody db
                 = (mkResponse 200
                      (TodoJson (mkRow "t1" "Buy milk" (Some "2l") true "alice" 1 7)),
                    <["t1" := mkRow "t1" "Buy milk" (Some "2l") true "alice" 1 7]> db)).
  { vm_compute. reflexivity. }
  destruct (PATCH_applies_only_provided_fields alice 7 "t1" reqBody db _ _ Hrun
              eq_refl)
    as (b & old & new & Hb & Hold & Hbody & _ & Ht & Hd & Hc & _ & _ & Hcr & Hup & _).
  injection Hb as <-. unfold db in Hold. rewrite lookup_singleton_eq in Hold.
  injection Hold as <-. simpl in *.
  rewrite Hrun. simpl. split; [reflexivity|].
  exists new. simpl in Hbody. injection Hc as Hc. auto 10.
Defined.

(** The database refuses a text with U+0000: the owner's PATCH with such a
    title ends in the catch-all 500 and writes nothing, while the same title
    without it, given under [set], is written. *)
Example PATCH_refuses_nul_text :
  PATCH alice 7 "t1" (Some (mkPatch (Some (JStr nulId)) None None)) aliceTable
  = (mkResponse 500 (ErrorJson "Failed to update todo"), aliceTable)
  /\ status (PATCH alice 7 "t1" (Some (mkPatch (Some (JSet (JStr "t1"))) None None))
               aliceTable).1 = 200.
Proof. vm_compute. split; reflexivity. Qed.

(** C8, as stated, fails.  Alice's PATCH with the body [{}] is a
    successful Update with a partial field set; it answers 200 with the row
    as it was, whose [updatedAt] is still 1 and not the instant 7 of the
    update. *)
Lemma empty_PATCH_keeps_updatedAt :
  PATCH alice 7 "t1" (Some (mkPatch None None None)) aliceTable
  = (mkResponse 200 (TodoJson milk), aliceTable)
  /\ updatedAt milk = 1
  /\ ~ updatedAt milk = 7.
Proof. vm_compute. repeat split; discriminate. Qed.

End StoreFacts.

(** ** The collection route *)

Section CollectionFacts.

Import Store.

Implicit Types (db : Table) (session : option ServerSession).

#[local] Instance newerFirst_total : Total newerFirst.
Proof. intros a b. unfold newerFirst. lia. Qed.

#[local] Instance newerFirst_trans : Transitive newerFirst.
Proof. intros a b c. unfold newerFirst. lia. Qed.

Lemma filter_none {A} (P : A -> Prop) `{!forall x, Decision (P x)} (l : list A) :
  (forall x, x ∈ l -> ~ P x) -> filter P l = [].
Proof.
  induction l as [|x l IH]; intros Hl; [done|].
  rewrite filter_cons_False by (apply Hl; left).
  apply IH. intros y Hy. apply Hl. by right.
Qed.

Lemma CREATE_created session now newId reqBody db resp db' :
  CREATE session now newId reqBody db = (resp, db') ->
  status resp = 201 ->
  exists u b t d c,
    signedIn session = Some u /\ reqBody = Some b
    /\ c_title b = Some (JStr t) /\ Js.blank t = false
    /\ db !! newId = None
    /\ resp = mkResponse 201 (TodoJson (mkRow newId t d c (user_id u) now now))
    /\ db' = <[newId := mkRow newId t d c (user_id u) now now]> db.
Proof.
  unfold CREATE. destruct (signedIn session) as [u|]; [|by intros [= <- <-]].
  destruct reqBody as [b|]; [|by intros [= <- <-]].
  destruct (c_title b) as [[| |t| |]|] eqn:Htitle; try by intros [= <- <-].
  destruct (Js.blank t) eqn:Hblank; [by intros [= <- <-]|].
  destruct (columnDescription _ _) as [d|]; [|by intros [= <- <-]].
  destruct (columnCompleted _ _) as [c|]; [|by intros [= <- <-]].
  destruct (db !! newId) eqn:Hfresh; [by intros [= <- <-]|].
  intros [= <- <-] _. by exists u, b, t, d, c.
Qed.

(** The rows a signed-in caller is listed. *)
Lemma LIST_rows session u db :
  signedIn session = Some u ->
  exists rows,
    LIST session db = mkResponse 200 (TodosJson rows)
    /\ rows ≡ₚ filter (ownedBy (user_id u)) (map_to_list db).*2
    /\ Sorted newerFirst rows.
Proof.
  intros Hu. unfold LIST. rewrite Hu. eexists. split; [reflexivity|]. split.
  - apply merge_sort_Permutation.
  - apply (Sorted_merge_sort newerFirst).
Qed.

(** C5.  For a signed-in caller, List answers 200 with rows that are
    exactly the caller's rows of the table, each as often as the table holds
    it, the later created before the earlier; and when a caller without
    todos creates "A" and then, at a later instant, "B", List answers
    [B, A]. *)
Theorem LIST_owned_newest_first session u db :
  signedIn session = Some u ->
  (exists rows,
      LIST session db = mkResponse 200 (TodosJson rows)
      /\ (forall r, r ∈ rows <-> userId r = user_id u /\ exists k, db !! k = Some r)
      /\ rows ≡ₚ filter (ownedBy (user_id u)) (map_to_list db).*2
      /\ StronglySorted newerFirst rows)
  /\ (forall now1 now2 id1 id2 resp1 db1 resp2 db2,
      (forall k r, db !! k = Some r -> userId r <> user_id u) ->
      (now1 < now2)%Z ->
      CREATE session now1 id1 (Some (mkCreate (Some (JStr "A")) None None)) db
        = (resp1, db1) ->
      status resp1 = 201 ->
      CREATE session now2 id2 (Some (mkCreate (Some (JStr "B")) None None)) db1
        = (resp2, db2) ->
      status resp2 = 201 ->
      exists a b,
        body resp1 = TodoJson a /\ body resp2 = TodoJson b
        /\ title a = "A" /\ title b = "B"
        /\ LIST session db2 = mkResponse 200 (TodosJson [b; a])).
Proof.
  intros Hu. split.
  - destruct (LIST_rows session u db Hu) as (rows & Hlist & Hperm & Hsorted).
    exists rows. split; [done|]. split; [|split; [done|]].
    + intros r. rewrite Hperm, list_elem_of_filter, list_elem_of_fmap.
      unfold ownedBy. split.
      * intros [Hown ([k r'] & -> & Hin)]. split; [done|].
        exists k. by apply elem_of_map_to_list.
      * intros [Hown [k Hk]]. split; [done|].
        exists (k, r). split; [done|]. by apply elem_of_map_to_list.
    + by apply (Sorted_StronglySorted newerFirst).
  - intros now1 now2 id1 id2 resp1 db1 resp2 db2 Hnone Hlt Hc1 Hs1 Hc2 Hs2.
    apply CREATE_created in Hc1
      as (u1 & b1 & t1 & d1 & c1 & Hu1 & Hb1 & Ht1 & _ & Hf1 & -> & ->); [|done].
    apply CREATE_created in Hc2
      as (u2 & b2 & t2 & d2 & c2 & Hu2 & Hb2 & Ht2 & _ & Hf2 & -> & ->); [|done].
    injection Hb1 as <-. injection Hb2 as <-. simpl in Ht1, Ht2.
    injection Ht1 as <-. injection Ht2 as <-.
    rewrite Hu in Hu1, Hu2. injection Hu1 as <-. injection Hu2 as <-.
    set (a := mkRow id1 "A" d1 c1 (user_id u) now1 now1).
    set (b := mkRow id2 "B" d2 c2 (user_id u) now2 now2).
    exists a, b. repeat (split; [reflexivity|]).
    destruct (LIST_rows session u (<[id2:=b]> (<[id1:=a]> db)) Hu)
      as (rows & Hlist & Hperm & Hsorted).
    rewrite Hlist. do 2 f_equal.
    assert (Hba : rows ≡ₚ [b; a]).
    { rewrite Hperm, map_to_list_insert by done.
      rewrite map_to_list_insert by done. simpl.
      rewrite filter_cons_True by done. rewrite filter_cons_True by done.
      rewrite filter_none; [done|].
      intros r ([k r'] & -> & Hin)%list_elem_of_fmap.
      apply elem_of_map_to_list in Hin. by apply Hnone in Hin. }
    symmetry in Hba. apply Permutation_length_2_inv in Hba as [->| ->]; [done|].
    exfalso. apply Sorted_inv in Hsorted as [_ Hhd].
    apply HdRel_inv in Hhd. unfold newerFirst in Hhd. simpl in Hhd. lia.
Qed.

(** C6.  Under a valid session, a Create whose title is missing, empty or
    made of whitespace only answers 400 and returns the table as it was; a
    Create whose title is a text with a character that is not whitespace,
    whose other keys are absent or well-typed, and whose generated id is not
    in use, answers with the created record, which carries the generated id,
    the caller as owner and the instant of creation as both timestamps, and
    stores it under that id. *)
Theorem CREATE_validates_title session u now newId b db :
  signedIn session = Some u ->
  ((c_title b = None \/ exists t, c_title b = Some (JStr t) /\ Js.blank t = true) ->
     exists msg,
       CREATE session now newId (Some b) db = (mkResponse 400 (ErrorJson msg), db))
  /\ (forall t d c,
        c_title b = Some (JStr t) -> Js.blank t = false ->
        columnDescription None (c_description b) = Some d ->
        columnCompleted false (c_completed b) = Some c ->
        db !! newId = None ->
        CREATE session now newId (Some b) db
        = (mkResponse 201 (TodoJson (mkRow newId t d c (user_id u) now now)),
           <[newId := mkRow newId t d c (user_id u) now now]> db)).
Proof.
  intros Hu. unfold CREATE. rewrite Hu. split.
  - intros [-> | (t & -> & ->)]; eauto.
  - intros t d c -> -> -> -> ->. reflexivity.
Qed.

End CollectionFacts.

(** ** The session *)

Section SessionFacts.

Import Js Session.

Context {W : Type}.
Variable fetch : forall A : Type, Request A -> W -> FetchResult A * W.

Implicit Types (st : State) (w : W) (key : string).

(** C3.  When the store call of [addTodo], [updateTodo], [deleteTodo] or
    [toggleComplete] fails (the network fails, or the response is not ok),
    the promise rejects with the very exception that left the [try] block,
    the list of todos is the one before the call, and the error message of
    the operation is set. *)
Theorem failed_mutation_keeps_todos st w :
  (forall d res w' err,
      fetch _ (PostTodo d) w = (res, w') ->
      StoreFails "Failed to create todo" res err ->
      exists st', addTodo fetch d st w = (Rejected err, st', w')
        /\ todos st' = todos st
        /\ error st' = Some "Failed to create todo. Please try again.")
  /\ (forall key u res w' err,
      fetch _ (PatchTodo key u) w = (res, w') ->
      StoreFails "Failed to update todo" res err ->
      exists st', updateTodo fetch key u st w = (Rejected err, st', w')
        /\ todos st' = todos st
        /\ error st' = Some "Failed to update todo. Please try again.")
  /\ (forall key res w' err,
      fetch _ (DeleteTodo key) w = (res, w') ->
      StoreFails "Failed to delete todo" res err ->
      exists st', deleteTodo fetch key st w = (Rejected err, st', w')
        /\ todos st' = todos st
        /\ error st' = Some "Failed to delete todo. Please try again.")
  /\ (forall key b res w' err,
      fetch _ (PatchTodo key (mkUpdates None None None (Some (negb b)) None None)) w
        = (res, w') ->
      StoreFails "Failed to update todo" res err ->
      exists st', toggleComplete fetch key b st w = (Rejected err, st', w')
        /\ todos st' = todos st
        /\ error st' = Some "Failed to update todo. Please try again.").
Proof.
  repeat split.
  - intros d res w' err Hf Hfail. unfold addTodo. rewrite Hf.
    destruct Hfail; simpl; eauto.
  - intros key u res w' err Hf Hfail. unfold updateTodo. rewrite Hf.
    destruct Hfail; simpl; eauto.
  - intros key res w' err Hf Hfail. unfold deleteTodo. rewrite Hf.
    destruct Hfail; simpl; eauto.
  - intros key b res w' err Hf Hfail. unfold toggleComplete. rewrite Hf.
    destruct Hfail; simpl; eauto.
Qed.

Lemma replaceById_lookup key updatedTodo (l : list Todo) i todo :
  l !! i = Some todo ->
  replaceById key updatedTodo l !! i
  = Some (if bool_decide (id todo = key) then updatedTodo else todo).
Proof. intros Hi. unfold replaceById. by rewrite list_lookup_fmap, Hi. Qed.

Lemma filter_greatest_sublist {A} (P : A -> Prop) `{!forall x, Decision (P x)}
    (k l : list A) :
  sublist k l -> Forall P k -> sublist k (filter P l).
Proof.
  induction 1 as [|x k l Hsub IH|x k l Hsub IH]; intros HP.
  - constructor.
  - apply Forall_cons in HP as [Hx HP]. rewrite filter_cons_True by done.
    constructor. by apply IH.
  - rewrite filter_cons. destruct (decide (P x)); [constructor|]; by apply IH.
Qed.

(** C4.  On success, [addTodo] puts the returned record in front of the
    list; [updateTodo] and [toggleComplete] keep the length of the list and
    put the returned record at each position whose entry has the given id,
    every other position keeping its entry; [deleteTodo] leaves the longest
    sublist without an entry of the given id, the kept entries in their
    order. *)
Theorem successful_mutation_patches_list st w :
  (forall d newTodo w',
      fetch _ (PostTodo d) w = (RespondsOk (inr newTodo), w') ->
      exists st', addTodo fetch d st w = (Fulfilled, st', w')
        /\ todos st' = newTodo :: todos st)
  /\ (forall key u updatedTodo w',
      fetch _ (PatchTodo key u) w = (RespondsOk (inr updatedTodo), w') ->
      exists st', updateTodo fetch key u st w = (Fulfilled, st', w')
        /\ length (todos st') = length (todos st)
        /\ forall i todo, todos st !! i = Some todo ->
             todos st' !! i
             = Some (if bool_decide (id todo = key) then updatedTodo else todo))
  /\ (forall key b updatedTodo w',
      fetch _ (PatchTodo key (mkUpdates None None None (Some (negb b)) None None)) w
        = (RespondsOk (inr updatedTodo), w') ->
      exists st', toggleComplete fetch key b st w = (Fulfilled, st', w')
        /\ length (todos st') = length (todos st)
        /\ forall i todo, todos st !! i = Some todo ->
             todos st' !! i
             = Some (if bool_decide (id todo = key) then updatedTodo else todo))
  /\ (forall key j w',
      fetch _ (DeleteTodo key) w = (RespondsOk j, w') ->
      exists st', deleteTodo fetch key st w = (Fulfilled, st', w')
        /\ sublist (todos st') (todos st)
        /\ Forall (fun todo => id todo <> key) (todos st')
        /\ forall l, sublist l (todos st) ->
             Forall (fun todo => id todo <> key) l -> sublist l (todos st')).
Proof.
  repeat split.
  - intros d newTodo w' Hf. unfold addTodo. rewrite Hf. simpl. eauto.
  - intros key u updatedTodo w' Hf. unfold updateTodo. rewrite Hf. simpl.
    eexists; split; [reflexivity|]. simpl. split.
    + unfold replaceById. apply length_fmap.
    + intros i todo. apply replaceById_lookup.
  - intros key b updatedTodo w' Hf. unfold toggleComplete. rewrite Hf. simpl.
    eexists; split; [reflexivity|]. simpl. split.
    + unfold replaceById. apply length_fmap.
    + intros i todo. apply replaceById_lookup.
  - intros key j w' Hf. unfold deleteTodo. rewrite Hf. simpl.
    eexists; split; [reflexivity|]. simpl. unfold removeById. split; [|split].
    + apply sublist_filter.
    + apply Forall_forall. intros todo Hin.
      by apply list_elem_of_filter in Hin as [? _].
    + intros l. apply filter_greatest_sublist.
Qed.

(** C9, as the provider has it.  When the List fetch fails, [fetchTodos]
    still fulfils, sets the error message, clears [loading] and leaves the
    list of todos as it was: a refresh keeps the list loaded before, and the
    load on mount, which starts from the empty list, ends with it empty. *)
Theorem failed_list_keeps_todos st w res w' err :
  fetch _ GetTodos w = (res, w') ->
  StoreFails "Failed to fetch todos" res err ->
  (exists st', refreshTodos fetch st w = (Fulfilled, st', w')
     /\ todos st' = todos st
     /\ error st' = Some "Failed to load todos. Please try again later."
     /\ loading st' = false)
  /\ (exists st0, mount fetch w = (Fulfilled, st0, w')
     /\ todos st0 = []
     /\ error st0 = Some "Failed to load todos. Please try again later."
     /\ loading st0 = false).
Proof.
  intros Hf Hfail. unfold mount, refreshTodos, fetchTodos. rewrite Hf.
  destruct Hfail; simpl; eauto 10.
Qed.

Lemma toggleComplete_as_updateTodo key b st w :
  toggleComplete fetch key b st w
  = updateTodo fetch key (mkUpdates None None None (Some (negb b)) None None) st w.
Proof. reflexivity. Qed.

Lemma toggleComplete_recorded key b st w (log : list FetchArgs) :
  (toggleComplete (recording fetch) key b st (w, log)).2.2
  = (log ++ [mkFetchArgs ("/api/todos/" +:+ key) HttpPATCH
               (Some "application/json")
               (Some (UpdatesJson
                        (mkUpdates None None None (Some (negb b)) None None)))])%list.
Proof.
  unfold toggleComplete, recording. simpl.
  destruct (fetch _ _ w) as [res w1]. simpl.
  by destruct (jsonOrThrow _ res).
Qed.

End SessionFacts.

(** ** The components *)

Section ComponentFacts.

Import Js Session.

Context {W : Type}.
Variable fetch : forall A : Type, Request A -> W -> FetchResult A * W.

(** [handleSave] sends nothing when the edited title is blank, and
    otherwise exactly one PATCH, whose title is not blank. *)
Lemma handleSave_requests todo (l : TodoItem.Local) st w log :
  (TodoItem.handleSave (recording fetch) todo l st (w, log)).2.2
  = if blank (TodoItem.editedTitle l) then log
    else (log ++ [mkFetchArgs ("/api/todos/" +:+ id todo) HttpPATCH
                    (Some "application/json")
                    (Some (UpdatesJson
                             (mkUpdates None
                                (Some (trim (TodoItem.editedTitle l)))
                                (Some (orNull (trim (TodoItem.editedDescription l))))
                                None None None)))])%list.
Proof.
  unfold TodoItem.handleSave. rewrite truthy_trim.
  destruct (blank (TodoItem.editedTitle l)); simpl; [done|].
  unfold updateTodo, recording. simpl.
  destruct (fetch _ _ w) as [res w1]. simpl.
  by destruct (jsonOrThrow _ res).
Qed.

(** [handleSubmit] sends nothing when the title is blank, and otherwise
    exactly one POST, whose title is not blank. *)
Lemma handleSubmit_requests (l : TodoForm.Local) st w log :
  (TodoForm.handleSubmit (recording fetch) l st (w, log)).2.2
  = if blank (TodoForm.title l) then log
    else (log ++ [mkFetchArgs "/api/todos" HttpPOST (Some "application/json")
                    (Some (DataJson
                             (mkTodoData (trim (TodoForm.title l))
                                (orNull (trim (TodoForm.description l)))
                                false)))])%list.
Proof.
  unfold TodoForm.handleSubmit. rewrite truthy_trim.
  destruct (blank (TodoForm.title l)); simpl; [done|].
  unfold addTodo, recording. simpl.
  destruct (fetch _ _ w) as [res w1]. simpl.
  by destruct (jsonOrThrow _ res).
Qed.

End ComponentFacts.

(** ** The session against the store *)

Section SystemFacts.

Import Js Session System.

Variable toISOString : Z -> string.

Implicit Types (db : Store.Table) (env : Env) (st : State).

Lemma serve_patch_by_owner env usr key u db old :
  Store.signedIn (session env) = Some usr ->
  db !! key = Some old ->
  Store.userId old = Store.user_id usr ->
  storableUpdates u = true ->
  serve toISOString env _ (PatchTodo key u) db
  = (RespondsOk (inr (wire toISOString (updatedRow (now env) u old))),
     <[key := updatedRow (now env) u old]> db).
Proof.
  intros Hu Hold Hown Hst. unfold serve, Store.PATCH.
  rewrite Hu, (findUnique_found _ _ _ Hold).
  rewrite bool_decide_eq_false_2 by (intros Hne; by apply Hne).
  unfold Store.prismaUpdate, updatedRow, storableUpdates in *. rewrite Hold.
  destruct u as [i [t|] [[d|]|] [c|] ca ua]; simpl in *;
    repeat match goal with
      | H : context [Store.hasNul ?x] |- _ =>
          destruct (Store.hasNul x); [discriminate H|]
      end;
    simpl; try reflexivity.
  by rewrite insert_id.
Qed.

Lemma replaceById_entries key updatedTodo (l : list Todo) :
  Forall (fun todo => id todo = key -> todo = updatedTodo)
    (replaceById key updatedTodo l).
Proof.
  unfold replaceById. apply Forall_fmap, Forall_forall. intros todo _. simpl.
  case_bool_decide; [done|]. intros Hid. congruence.
Qed.

Lemma toggle_by_owner env usr key b st db old :
  Store.signedIn (session env) = Some usr ->
  db !! key = Some old ->
  Store.userId old = Store.user_id usr ->
  let new :=
    updatedRow (now env) (mkUpdates None None None (Some (negb b)) None None) old in
  toggleComplete (serve toISOString env) key b st db
  = (Fulfilled,
     setError None (setTodos (replaceById key (wire toISOString new)) st),
     <[key := new]> db).
Proof.
  intros Hu Hold Hown new. unfold toggleComplete.
  by rewrite (serve_patch_by_owner env usr key
                (mkUpdates None None None (Some (negb b)) None None) db old
                Hu Hold Hown eq_refl).
Qed.

(** A load served for a signed-in caller shows the listed rows, in the
    order of the store. *)
Lemma fetchTodos_shows_list env usr st db :
  Store.signedIn (session env) = Some usr ->
  exists rows,
    Store.LIST (session env) db = Store.mkResponse 200 (Store.TodosJson rows)
    /\ fetchTodos (serve toISOString env) st db
       = (Fulfilled,
          setLoading false
            (setError None
               (setTodos (fun _ => map (wire toISOString) rows)
                  (setLoading true st))),
          db).
Proof.
  intros Hu. unfold fetchTodos, serve, Store.LIST. rewrite Hu. simpl. eauto.
Qed.

(** C7.  A todo whose checkbox shows the stored value of [completed] is
    toggled by its owner, and the record this returns is toggled again: both
    toggles succeed, and the row then stored has the [completed], the [title]
    and the [description] it had before the first toggle; after each toggle
    the entries of the list with that id are the record just returned. *)
Theorem double_toggle_restores env1 env2 usr1 usr2 todo st db row :
  Store.signedIn (session env1) = Some usr1 ->
  Store.signedIn (session env2) = Some usr2 ->
  db !! id todo = Some row ->
  Store.userId row = Store.user_id usr1 ->
  Store.userId row = Store.user_id usr2 ->
  Store.id row = id todo ->
  completed todo = Store.completed row ->
  exists st1 db1 row1 st2 db2 row2,
    TodoItem.onCheckboxChange (serve toISOString env1) todo st db
      = (Fulfilled, st1, db1)
    /\ db1 !! id todo = Some row1
    /\ Store.completed row1 = negb (Store.completed row)
    /\ Forall (fun t => id t = id todo -> t = wire toISOString row1) (todos st1)
    /\ TodoItem.onCheckboxChange (serve toISOString env2)
         (wire toISOString row1) st1 db1
      = (Fulfilled, st2, db2)
    /\ db2 !! id todo = Some row2
    /\ Store.completed row2 = Store.completed row
    /\ Store.title row2 = Store.title row
    /\ Store.description row2 = Store.description row
    /\ Forall (fun t => id t = id todo -> t = wire toISOString row2) (todos st2).
Proof.
  intros Hu1 Hu2 Hrow Hown1 Hown2 Hid Hshown.
  unfold TodoItem.onCheckboxChange.
  set (key := id todo) in *.
  set (row1 := updatedRow (now env1)
                 (mkUpdates None None None (Some (negb (completed todo))) None None)
                 row).
  assert (Hrow1 : (<[key := row1]> db) !! key = Some row1)
    by apply lookup_insert_eq.
  set (row2 := updatedRow (now env2)
                 (mkUpdates None None None (Some (negb (Store.completed row1)))
                    None None)
                 row1).
  eexists _, _, row1, _, _, row2.
  split; [exact (toggle_by_owner env1 usr1 key _ st db row Hu1 Hrow Hown1)|].
  split; [done|].
  split; [simpl; by rewrite Hshown|].
  split; [apply replaceById_entries|].
  assert (Hkey1 : id (wire toISOString row1) = key) by (simpl; exact Hid).
  rewrite Hkey1.
  split; [exact (toggle_by_owner env2 usr2 key _ _ _ row1 Hu2 Hrow1 Hown2)|].
  split; [apply lookup_insert_eq|].
  split; [simpl; rewrite Hshown; apply negb_involutive|].
  split; [reflexivity|]. split; [reflexivity|].
  apply replaceById_entries.
Qed.

(** C10.  [toggleComplete id b] is [updateTodo id {completed: !b}] for
    every [fetch], state and world; the one request it makes is a PATCH of
    [/api/todos/id] whose body is [{completed: !b}]; and when the store
    serves it for the owner, the row afterwards has [completed = !b],
    whatever [completed] the row had. *)
Theorem toggleComplete_negates_its_argument key b :
  (forall (W : Type) (fetch : forall A : Type, Request A -> W -> FetchResult A * W)
          st w,
      toggleComplete fetch key b st w
      = updateTodo fetch key
          (mkUpdates None None None (Some (negb b)) None None) st w)
  /\ (forall (W : Type) (fetch : forall A : Type, Request A -> W -> FetchResult A * W)
            st w log,
      (toggleComplete (recording fetch) key b st (w, log)).2.2
      = (log ++ [mkFetchArgs ("/api/todos/" +:+ key) HttpPATCH
                   (Some "application/json")
                   (Some (UpdatesJson
                            (mkUpdates None None None (Some (negb b)) None None)))])%list)
  /\ (forall env usr st db row,
      Store.signedIn (session env) = Some usr ->
      db !! key = Some row ->
      Store.userId row = Store.user_id usr ->
      exists st' db' row',
        toggleComplete (serve toISOString env) key b st db = (Fulfilled, st', db')
        /\ db' !! key = Some row'
        /\ Store.completed row' = negb b
        /\ Store.title row' = Store.title row
        /\ Store.description row' = Store.description row).
Proof.
  split; [|split].
  - intros W fetch st w. apply toggleComplete_as_updateTodo.
  - intros W fetch st w log. apply toggleComplete_recorded.
  - intros env usr st db row Hu Hrow Hown. eexists _, _, _.
    split; [exact (toggle_by_owner env usr key b st db row Hu Hrow Hown)|].
    split; [apply lookup_insert_eq|]. by simpl.
Qed.

End SystemFacts.

(** ** The properties at work on the sample worlds *)

Section Witnesses.

Import Js Session System Scenario.

Lemma failed_mutation_keeps_todos_witness :
  (exists st',
      addTodo offline (mkTodoData "Walk" None false) loaded tt
        = (Rejected (TypeError "Failed to fetch"), st', tt)
      /\ todos st' = [shownMilk]
      /\ error st' = Some "Failed to create todo. Please try again.")
  /\ (exists st',
      deleteTodo (serve stamp signedOut) "t1" loaded aliceTable
        = (Rejected (Error "Failed to delete todo"), st', aliceTable)
      /\ todos st' = [shownMilk]
      /\ error st' = Some "Failed to delete todo. Please try again.").
Proof.
  split.
  - destruct (failed_mutation_keeps_todos offline loaded tt) as (Hadd & _).
    apply (Hadd _ _ tt _ eq_refl). constructor.
  - destruct (failed_mutation_keeps_todos (serve stamp signedOut) loaded aliceTable)
      as (_ & _ & Hdel & _).
    apply (Hdel "t1" (RespondsNotOk 401) aliceTable); [reflexivity|constructor].
Defined.

Lemma successful_mutation_patches_list_witness :
  let walk := mkTodo "t2" "Walk" None false "5" "5" in
  (exists st',
      addTodo (serve stamp (asAlice 5 "t2")) (mkTodoData "Walk" None false)
        loaded aliceTable
        = (Fulfilled, st', <["t2" := Store.mkRow "t2" "Walk" None false "alice" 5 5]>
                             aliceTable)
      /\ todos st' = [walk; shownMilk])
  /\ (exists st',
      deleteTodo (serve stamp (asAlice 6 "t3")) "t1" loaded aliceTable
        = (Fulfilled, st', delete "t1" aliceTable)
      /\ todos st' = []).
Proof.
  intros walk. split.
  - destruct (successful_mutation_patches_list (serve stamp (asAlice 5 "t2"))
                loaded aliceTable) as (Hadd & _).
    destruct (Hadd (mkTodoData "Walk" None false) walk
                (<["t2" := Store.mkRow "t2" "Walk" None false "alice" 5 5]> aliceTable))
      as (st' & Hrun & Htodos); [vm_compute; reflexivity|].
    exists st'. split; [exact Hrun | exact Htodos].
  - destruct (successful_mutation_patches_list (serve stamp (asAlice 6 "t3"))
                loaded aliceTable) as (_ & _ & _ & Hdel).
    destruct (Hdel "t1" (inr tt) (delete "t1" aliceTable))
      as (st' & Hrun & Hsub & Hall & _); [vm_compute; reflexivity|].
    exists st'. split; [exact Hrun|].
    clear -Hrun. vm_compute in Hrun. injection Hrun as <-. reflexivity.
Defined.

Lemma LIST_owned_newest_first_witness :
  let a := Store.mkRow "t1" "A" None false "alice" 1 1 in
  let b := Store.mkRow "t2" "B" None false "alice" 2 2 in
  Store.signedIn alice = Some (Store.mkUser "alice")
  /\ (1 < 2)%Z
  /\ Store.LIST alice (<["t2" := b]> (<["t1" := a]> bobTable))
     = Store.mkResponse 200 (Store.TodosJson [b; a])
  /\ Store.LIST bob (<["t2" := b]> (<["t1" := a]> bobTable))
     = Store.mkResponse 200 (Store.TodosJson [bread]).
Proof.
  intros a b.
  destruct (LIST_owned_newest_first alice (Store.mkUser "alice") bobTable eq_refl)
    as (_ & Hscenario).
  destruct (Hscenario 1 2 "t1" "t2"
              (Store.mkResponse 201 (Store.TodoJson a)) (<["t1" := a]> bobTable)
              (Store.mkResponse 201 (Store.TodoJson b))
              (<["t2" := b]> (<["t1" := a]> bobTable)))
    as (a' & b' & Ha & Hb & _ & _ & Hlist).
  - unfold bobTable. intros k r [<- <-]%lookup_singleton_Some. discriminate.
  - lia.
  - vm_compute. reflexivity.
  - reflexivity.
  - vm_compute. reflexivity.
  - reflexivity.
  - simpl in Ha, Hb. injection Ha as <-. injection Hb as <-.
    split; [reflexivity|]. split; [lia|]. split; [exact Hlist|].
    vm_compute. reflexivity.
Defined.

Lemma CREATE_validates_title_witness :
  let spaces := Store.mkCreate (Some (Store.JStr "   ")) None None in
  let walk := Store.mkCreate (Some (Store.JStr "Walk")) None None in
  let row := Store.mkRow "t2" "Walk" None false "alice" 5 5 in
  Store.signedIn alice = Some (Store.mkUser "alice")
  /\ (exists msg,
        Store.CREATE alice 5 "t2" (Some spaces) aliceTable
        = (Store.mkResponse 400 (Store.ErrorJson msg), aliceTable))
  /\ Store.CREATE alice 5 "t2" (Some walk) aliceTable
     = (Store.mkResponse 201 (Store.TodoJson row), <["t2" := row]> aliceTable).
Proof.
  intros spaces walk row. split; [reflexivity|]. split.
  - destruct (CREATE_validates_title alice (Store.mkUser "alice") 5 "t2" spaces
                aliceTable eq_refl) as (Hblank & _).
    apply Hblank. right. exists "   ". split; reflexivity.
  - destruct (CREATE_validates_title alice (Store.mkUser "alice") 5 "t2" walk
                aliceTable eq_refl) as (_ & Hcreated).
    apply (Hcreated "Walk" None false); reflexivity.
Defined.

Lemma double_toggle_restores_witness :
  exists st1 db1 row1 st2 db2 row2,
    TodoItem.onCheckboxChange (serve stamp (asAlice 5 "t2")) shownMilk loaded aliceTable
      = (Fulfilled, st1, db1)
    /\ db1 !! "t1" = Some row1
    /\ Store.completed row1 = true
    /\ TodoItem.onCheckboxChange (serve stamp (asAlice 6 "t3"))
         (wire stamp row1) st1 db1
      = (Fulfilled, st2, db2)
    /\ db2 !! "t1" = Some row2
    /\ Store.completed row2 = false
    /\ Store.title row2 = "Buy milk"
    /\ Store.description row2 = None.
Proof.
  destruct (double_toggle_restores stamp (asAlice 5 "t2") (asAlice 6 "t3")
              (Store.mkUser "alice") (Store.mkUser "alice") shownMilk loaded
              aliceTable milk)
    as (st1 & db1 & row1 & st2 & db2 & row2
        & H1 & Hr1 & Hc1 & _ & H2 & Hr2 & Hc2 & Ht2 & Hd2 & _);
    try reflexivity.
  exists st1, db1, row1, st2, db2, row2. auto 10.
Defined.

Lemma failed_list_keeps_todos_witness :
  (exists st',
      refreshTodos (serve stamp signedOut) loaded aliceTable
        = (Fulfilled, st', aliceTable)
      /\ todos st' = [shownMilk]
      /\ error st' = Some "Failed to load todos. Please try again later."
      /\ loading st' = false)
  /\ (exists st0,
      mount offline tt = (Fulfilled, st0, tt)
      /\ todos st0 = []
      /\ error st0 = Some "Failed to load todos. Please try again later."
      /\ loading st0 = false).
Proof.
  split.
  - refine (proj1 (failed_list_keeps_todos (serve stamp signedOut) loaded aliceTable
                     (RespondsNotOk 401) aliceTable _ eq_refl _)).
    constructor.
  - refine (proj2 (failed_list_keeps_todos offline loaded tt
                     (Rejects (TypeError "Failed to fetch")) tt _ eq_refl _)).
    constructor.
Defined.

(** C9, as stated, fails.  Alice's list is loaded on mount; the session then
    ends and a refresh is answered 401: the List fetch has failed and the
    error is set, yet the list still holds the todo loaded before. *)
Lemma failed_refresh_keeps_loaded_list :
  let st1 := (mount (serve stamp (asAlice 5 "t2")) aliceTable).1.2 in
  let st2 := (refreshTodos (serve stamp signedOut) st1 aliceTable).1.2 in
  todos st1 = [shownMilk]
  /\ StoreFails "Failed to fetch todos"
       (serve stamp signedOut _ GetTodos aliceTable).1
       (Error "Failed to fetch todos")
  /\ error st2 = Some "Failed to load todos. Please try again later."
  /\ todos st2 = [shownMilk]
  /\ ~ (todos st2 = [] /\ error st2 <> None).
Proof.
  intros st1 st2.
  assert (Hst1 : todos st1 = [shownMilk]) by (vm_compute; reflexivity).
  assert (Hst2 : todos st2 = [shownMilk]) by (vm_compute; reflexivity).
  split; [exact Hst1|]. split; [constructor|].
  split; [vm_compute; reflexivity|]. split; [exact Hst2|].
  intros [Hempty _]. rewrite Hst2 in Hempty. discriminate.
Qed.

Lemma toggleComplete_negates_its_argument_witness :
  let done := Store.mkRow "t1" "Buy milk" None true "alice" 1 1 in
  exists st' db' row',
    toggleComplete (serve stamp (asAlice 5 "t2")) "t1" false loaded {[ "t1" := done ]}
      = (Fulfilled, st', db')
    /\ db' !! "t1" = Some row'
    /\ Store.completed done = true
    /\ Store.completed row' = true.
Proof.
  intros done.
  destruct (toggleComplete_negates_its_argument stamp "t1" false) as (_ & _ & Hstore).
  destruct (Hstore (asAlice 5 "t2") (Store.mkUser "alice") loaded
              {[ "t1" := done ]} done eq_refl (lookup_singleton_eq _ _) eq_refl)
    as (st' & db' & row' & Hrun & Hrow & Hc & _).
  exists st', db', row'. auto.
Defined.

(** C2, evaluated.  The owner's PATCH with the body [{"title": ""}] is
    answered 200 and the row is stored with an empty title; sent through
    [updateTodo], the same update fulfils and puts the record with the empty
    title into the list. *)
Theorem empty_title_update_succeeds :
  let emptied := Store.mkRow "t1" "" None false "alice" 1 2 in
  Store.PATCH alice 2 "t1"
    (Some (Store.mkPatch (Some (Store.JStr "")) None None)) aliceTable
  = (Store.mkResponse 200 (Store.TodoJson emptied), {[ "t1" := emptied ]})
  /\ updateTodo (serve stamp (asAlice 2 "t2")) "t1"
       (mkUpdates None (Some "") None None None None) loaded aliceTable
     = (Fulfilled, mkState [wire stamp emptied] false None [],
        {[ "t1" := emptied ]})
  /\ title (wire stamp emptied) = "".
Proof. vm_compute. repeat split. Qed.

(** The scenario of the specification: create, list, complete, read,
    delete, list. *)
Example buy_milk_lifecycle :
  let created := Store.mkRow "t1" "Buy milk" None false "alice" 1 1 in
  let completed := Store.mkRow "t1" "Buy milk" None true "alice" 1 2 in
  let db1 := (Store.CREATE alice 1 "t1"
                (Some (Store.mkCreate (Some (Store.JStr "Buy milk")) None None))
                ∅).2 in
  let db2 := (Store.PATCH alice 2 "t1"
                (Some (Store.mkPatch None None (Some (Store.JBool true)))) db1).2 in
  let db3 := (Store.DELETE alice "t1" db2).2 in
  Store.LIST alice db1 = Store.mkResponse 200 (Store.TodosJson [created])
  /\ Store.GET alice "t1" db2 = Store.mkResponse 200 (Store.TodoJson completed)
  /\ Store.LIST alice db3 = Store.mkResponse 200 (Store.TodosJson []).
Proof. vm_compute. repeat split. Qed.

End Witnesses.

(** * Further properties *)

(** ** The by-id route: who may see and change what *)

Section StoreAccess.

Import Store Scenario.

Implicit Types (db : Table) (key : string) (session : option ServerSession).

(** X1.  Without a signed-in user the three handlers answer 401 and leave
    the table alone; the answer is the same whatever the table holds and
    whatever the body is, so it tells nothing about the id. *)
Theorem by_id_requires_sign_in session key db now reqBody :
  signedIn session = None ->
  status (GET session key db) = 401
  /\ (exists b, PATCH session now key reqBody db = (mkResponse 401 b, db))
  /\ (exists b, DELETE session key db = (mkResponse 401 b, db))
  /\ (forall db2 now2 reqBody2,
        GET session key db2 = GET session key db
        /\ (PATCH session now2 key reqBody2 db2).1 = (PATCH session now key reqBody db).1
        /\ (DELETE session key db2).1 = (DELETE session key db).1).
Proof.
  intros Hout. unfold GET, PATCH, DELETE. rewrite Hout. simpl.
  repeat split; eauto.
Qed.

Lemma by_id_requires_sign_in_witness :
  signedIn (Some (mkSession None)) = None
  /\ status (GET (Some (mkSession None)) "t1" aliceTable) = 401
  /\ GET None "t1" aliceTable = GET None "t1" ∅
  /\ (DELETE None "t1" aliceTable).2 = aliceTable.
Proof.
  destruct (by_id_requires_sign_in (Some (mkSession None)) "t1" aliceTable 0 None
              eq_refl) as (Hget & _).
  destruct (by_id_requires_sign_in None "t1" aliceTable 0 None eq_refl)
    as (_ & _ & [b Hdel] & Hsame).
  split; [reflexivity|]. split; [exact Hget|].
  split; [symmetry; exact (proj1 (Hsame ∅ 0 None))|].
  by rewrite Hdel.
Defined.

(** X2.  GET answers 200 exactly when the caller is signed in and owns the
    row stored under the id, and a todo is in the body exactly then: the row
    stored, owned by the caller. *)
Theorem GET_answers_owner_only session key db :
  (status (GET session key db) = 200 <->
     exists u r, signedIn session = Some u /\ db !! key = Some r
                 /\ userId r = user_id u)
  /\ (forall r, body (GET session key db) = TodoJson r <->
        exists u, signedIn session = Some u /\ db !! key = Some r
                  /\ userId r = user_id u).
Proof.
  unfold GET. destruct (signedIn session) as [u|]; simpl.
  2:{ split; [|intros r]; split; try discriminate.
      - intros (u & r & Hu & _). discriminate.
      - intros (u & Hu & _). discriminate. }
  unfold findUnique. destruct (db !! key) as [row|]; simpl.
  2:{ destruct (hasNul key); (split; [|intros r]; split; try discriminate).
      - intros (u' & r & _ & Hr & _). discriminate.
      - intros (u' & _ & Hr & _). discriminate.
      - intros (u' & r & _ & Hr & _). discriminate.
      - intros (u' & _ & Hr & _). discriminate. }
  case_bool_decide as Hown; simpl.
  - split; [|intros r]; split; try discriminate.
    + intros (u' & r & [= <-] & [= <-] & Heq). done.
    + intros (u' & [= <-] & [= <-] & Heq). done.
  - split; [|intros r]; split.
    + intros _. eauto.
    + done.
    + intros [= <-]. eauto.
    + intros (u' & _ & [= <-] & _). done.
Qed.

(** X3.  A request to the by-id route that is not answered 200 leaves the
    table as it was: a refused or failed PATCH or DELETE writes nothing. *)
Theorem by_id_failure_leaves_table r db :
  status (serveItem r db).1 <> 200 -> (serveItem r db).2 = db.
Proof.
  destruct r as [s k | s now k b | s k]; simpl; [done | |].
  - destruct (PATCH_cases s now k b db)
      as [(code & msg & -> & _) | (u & b' & old & new & _ & _ & _ & _ & _ & ->)];
      [done|]. simpl. done.
  - destruct (DELETE_cases s k db)
      as [(code & msg & -> & _) | (u & old & msg & _ & _ & _ & ->)]; [done|].
    simpl. done.
Qed.

Lemma by_id_failure_leaves_table_witness :
  status (serveItem (ReqPATCH alice 3 "t1" (Some (mkPatch (Some JNull) None None)))
            aliceTable).1 = 500
  /\ (serveItem (ReqPATCH alice 3 "t1" (Some (mkPatch (Some JNull) None None)))
        aliceTable).2 = aliceTable
  /\ (serveItem (ReqDELETE bob "t1") aliceTable).2 = aliceTable.
Proof.
  split; [vm_compute; reflexivity|]. split.
  - apply by_id_failure_leaves_table. vm_compute. discriminate.
  - apply by_id_failure_leaves_table. vm_compute. discriminate.
Defined.

Lemma serveItem_foreign r db key row :
  db !! key = Some row ->
  (forall u, signedIn (requester r) = Some u -> user_id u <> userId row) ->
  (serveItem r db).2 !! key = Some row.
Proof.
  intros Hrow Hother.
  destruct r as [s k | s now k b | s k]; simpl in *; [done | |].
  - destruct (PATCH_cases s now k b db)
      as [(code & msg & -> & _)
         | (u & b' & old & new & Hu & _ & Hold & Hown & _ & ->)]; [done|].
    simpl. rewrite lookup_insert_ne; [done|]. intros ->.
    rewrite Hrow in Hold. injection Hold as <-. by apply (Hother u).
  - destruct (DELETE_cases s k db)
      as [(code & msg & -> & _) | (u & old & msg & Hu & Hold & Hown & ->)];
      [done|].
    simpl. rewrite lookup_delete_ne; [done|]. intros ->.
    rewrite Hrow in Hold. injection Hold as <-. by apply (Hother u).
Qed.

(** X4.  Whatever requests the by-id route serves for callers other than
    the owner of a row, signed in or not, the row stays in the table
    unchanged. *)
Theorem foreign_requests_leave_row rs db key row :
  db !! key = Some row ->
  Forall (fun r => forall u, signedIn (requester r) = Some u ->
                             user_id u <> userId row) rs ->
  serveItems rs db !! key = Some row.
Proof.
  intros Hrow Hrs. revert db Hrow.
  induction Hrs as [|r rs Hr _ IH]; intros db Hrow; simpl; [done|].
  apply IH. by apply serveItem_foreign.
Qed.

Lemma foreign_requests_leave_row_witness :
  serveItems
    [ReqPATCH bob 3 "t1" (Some (mkPatch (Some (JStr "Mine")) None None));
     ReqDELETE bob "t1"; ReqDELETE None "t1"; ReqGET bob "t1"]
    aliceTable !! "t1" = Some milk.
Proof.
  apply foreign_requests_leave_row; [reflexivity|].
  repeat constructor; simpl; intros u [= <-]; discriminate.
Defined.

Lemma serveItem_identity r db key new :
  (serveItem r db).2 !! key = Some new ->
  exists old, db !! key = Some old /\ id new = id old
              /\ userId new = userId old /\ createdAt new = createdAt old.
Proof.
  destruct r as [s k | s now k b | s k]; simpl; [eauto | |].
  - destruct (PATCH_cases s now k b db)
      as [(code & msg & -> & _)
         | (u & b' & old & row & _ & _ & Hold & _ & Hup & ->)]; [eauto|].
    simpl. destruct (decide (k = key)) as [->|Hne].
    + rewrite lookup_insert_eq. intros [= <-].
      apply prismaUpdate_row in Hup as (old' & Hold' & _ & _ & _ & _ & ? & ? & ? & _).
      rewrite Hold in Hold'. injection Hold' as <-. eauto.
    + rewrite lookup_insert_ne by done. eauto.
  - destruct (DELETE_cases s k db)
      as [(code & msg & -> & _) | (u & old & msg & _ & _ & _ & ->)]; [eauto|].
    simpl. destruct (decide (k = key)) as [->|Hne].
    + by rewrite lookup_delete_eq.
    + rewrite lookup_delete_ne by done. eauto.
Qed.

(** X5.  The by-id route creates no row and never changes whose a row is:
    a row found under a key after any sequence of requests was there before,
    with the same [id], [userId] and [createdAt]; so a table whose rows sit
    under their own ids stays such a table. *)
Theorem by_id_keeps_identity rs db :
  (forall key new,
      serveItems rs db !! key = Some new ->
      exists old, db !! key = Some old /\ id new = id old
                  /\ userId new = userId old /\ createdAt new = createdAt old)
  /\ (keyedById db -> keyedById (serveItems rs db)).
Proof.
  assert (Hid : forall key new,
             serveItems rs db !! key = Some new ->
             exists old, db !! key = Some old /\ id new = id old
                         /\ userId new = userId old
                         /\ createdAt new = createdAt old).
  { revert db. induction rs as [|r rs IH]; intros db key new; simpl; [eauto|].
    intros Hnew. apply IH in Hnew as (mid & Hmid & Hi & Hu & Hc).
    apply serveItem_identity in Hmid as (old & Hold & Hi' & Hu' & Hc').
    exists old. repeat split; congruence. }
  split; [exact Hid|].
  intros Hkeyed key new Hnew.
  apply Hid in Hnew as (old & Hold & -> & _). by apply Hkeyed.
Qed.

(** X6.  DELETE answers 200 exactly for a signed-in caller who owns the
    row under the id; the table then is the old one without that key, and a
    second DELETE of the id, by any signed-in caller, changes nothing and
    answers 404 (500 were the id one the database refuses, under which no
    row is ever stored). *)
Theorem DELETE_succeeds_once session key db :
  (status (DELETE session key db).1 = 200 <->
     exists u r, signedIn session = Some u /\ db !! key = Some r
                 /\ userId r = user_id u)
  /\ (status (DELETE session key db).1 = 200 ->
      (DELETE session key db).2 = delete key db
      /\ forall session' u', signedIn session' = Some u' ->
           exists b, DELETE session' key (DELETE session key db).2
                     = (mkResponse (if hasNul key then 500 else 404) b,
                        (DELETE session key db).2)).
Proof.
  split.
  - destruct (DELETE_cases session key db)
      as [(code & msg & Hdel & Hcode & _)
         | (u & old & msg & Hu & Hold & Hown & ->)].
    + rewrite Hdel. simpl. split; [done|]. intros (u & r & Hu & Hr & Hown).
      unfold DELETE in Hdel. rewrite Hu, (findUnique_found _ _ _ Hr) in Hdel.
      rewrite bool_decide_eq_false_2 in Hdel by (intros Hne; by apply Hne).
      injection Hdel as <- _. done.
    + simpl. split; eauto.
  - intros Hok.
    assert (Hdb : (DELETE session key db).2 = delete key db).
    { apply (DELETE_ok session key db (DELETE session key db).1); [|done].
      by destruct (DELETE session key db). }
    split; [done|]. intros session' u' Hu'. rewrite Hdb.
    unfold DELETE. rewrite Hu', findUnique_absent by apply lookup_delete_eq.
    destruct (hasNul key); eauto.
Qed.

Lemma DELETE_succeeds_once_witness :
  status (DELETE alice "t1" aliceTable).1 = 200
  /\ (DELETE alice "t1" aliceTable).2 = delete "t1" aliceTable
  /\ exists b, DELETE alice "t1" (DELETE alice "t1" aliceTable).2
               = (mkResponse 404 b, (DELETE alice "t1" aliceTable).2).
Proof.
  destruct (DELETE_succeeds_once alice "t1" aliceTable) as (_ & Honce).
  destruct (Honce eq_refl) as (Hdb & Hagain).
  split; [reflexivity|]. split; [exact Hdb|].
  exact (Hagain alice (mkUser "alice") eq_refl).
Defined.

Lemma PATCH_by_owner session u now key b db old :
  signedIn session = Some u ->
  db !! key = Some old ->
  userId old = user_id u ->
  PATCH session now key (Some b) db
  = match prismaUpdate now key b db with
    | None => (jsonStatus (ErrorJson "Failed to update todo") 500, db)
    | Some (updatedTodo, db') => (json (TodoJson updatedTodo), db')
    end.
Proof.
  intros Hu Hold Hown. unfold PATCH.
  rewrite Hu, (findUnique_found _ _ _ Hold).
  rewrite bool_decide_eq_false_2 by (intros Hne; by apply Hne).
  change (patchData (p_title b) (p_description b) (p_completed b))
    with (mkPatch (p_title b) (p_description b) (p_completed b)).
  by replace (mkPatch (p_title b) (p_description b) (p_completed b)) with b
    by (by destruct b).
Qed.

Lemma prismaUpdate_columns now key b db old new db' :
  db !! key = Some old ->
  prismaUpdate now key b db = Some (new, db') ->
  updateTitle (title old) (p_title b) = Some (title new)
  /\ updateDescription (description old) (p_description b) = Some (description new)
  /\ updateCompleted (completed old) (p_completed b) = Some (completed new).
Proof.
  intros Hold. unfold prismaUpdate. rewrite Hold.
  destruct (emptyData b) eqn:Hempty.
  - intros [= <- _]. unfold emptyData in Hempty.
    by destruct (p_title b), (p_description b), (p_completed b).
  - destruct (updateTitle _ _) as [t|]; [|done].
    destruct (updateDescription _ _) as [d|]; [|done].
    destruct (updateCompleted _ _) as [c|]; [|done].
    by intros [= <- _].
Qed.

(** X7.  After a PATCH answered 200, a second PATCH of the same id by the
    same caller: with a body without any of the three keys, it answers the
    record of the first again and leaves the table as the first left it;
    with a body that has one, it is answered as a single PATCH with the
    merged body, the keys of the second over those of the first, is answered
    on the table before the first, and when that answer is 200 the two tables
    are the same too. *)
Theorem PATCH_twice_is_merged_PATCH session now1 now2 key b1 b2 db resp1 db1 :
  PATCH session now1 key (Some b1) db = (resp1, db1) ->
  status resp1 = 200 ->
  (emptyData b2 = true ->
     PATCH session now2 key (Some b2) db1 = (resp1, db1))
  /\ (emptyData b2 = false ->
      (PATCH session now2 key (Some b2) db1).1
      = (PATCH session now2 key (Some (mergePatch b2 b1)) db).1
      /\ (status (PATCH session now2 key (Some b2) db1).1 = 200 ->
          (PATCH session now2 key (Some b2) db1).2
          = (PATCH session now2 key (Some (mergePatch b2 b1)) db).2)).
Proof.
  destruct (PATCH_cases session now1 key (Some b1) db)
    as [(code & msg & -> & Hcode & _)
       | (u & b & old & new & Hu & [= <-] & Hold & Hown & Hup & ->)].
  { intros [= <- <-] Hok. done. }
  intros [= <- <-] _.
  pose proof (prismaUpdate_columns _ _ _ _ _ _ _ Hold Hup) as (Ht1 & Hd1 & Hc1).
  apply prismaUpdate_row in Hup
    as (old' & Hold' & _ & _ & _ & _ & Hi & Hus & Hcr & _).
  rewrite Hold in Hold'. injection Hold' as <-.
  assert (Hnew : (<[key := new]> db) !! key = Some new) by apply lookup_insert_eq.
  rewrite (PATCH_by_owner session u now2 key b2 _ new Hu Hnew) by congruence.
  rewrite (PATCH_by_owner session u now2 key (mergePatch b2 b1) db old Hu Hold Hown).
  unfold prismaUpdate. rewrite Hnew, Hold. split.
  - intros ->. done.
  - intros Hempty. rewrite Hempty.
    assert (Hmerged : emptyData (mergePatch b2 b1) = false).
    { revert Hempty. unfold emptyData, mergePatch. simpl.
      by destruct (p_title b2), (p_description b2), (p_completed b2),
        (p_title b1), (p_description b1), (p_completed b1). }
    rewrite Hmerged. unfold mergePatch. simpl.
    assert (Ht : updateTitle (title new) (p_title b2)
                 = updateTitle (title old) (overriding (p_title b2) (p_title b1))).
    { destruct (p_title b2); simpl; [done | by rewrite Ht1]. }
    assert (Hd : updateDescription (description new) (p_description b2)
                 = updateDescription (description old)
                     (overriding (p_description b2) (p_description b1))).
    { destruct (p_description b2); simpl; [done | by rewrite Hd1]. }
    assert (Hc : updateCompleted (completed new) (p_completed b2)
                 = updateCompleted (completed old)
                     (overriding (p_completed b2) (p_completed b1))).
    { destruct (p_completed b2); simpl; [done | by rewrite Hc1]. }
    rewrite Ht, Hd, Hc, Hi, Hus, Hcr. clear Ht Hd Hc Ht1 Hd1 Hc1.
    destruct (updateTitle (title old) (overriding (p_title b2) (p_title b1)));
      [|done].
    destruct (updateDescription (description old)
                (overriding (p_description b2) (p_description b1))); [|done].
    destruct (updateCompleted (completed old)
                (overriding (p_completed b2) (p_completed b1))); [|done].
    simpl. split; [done|]. intros _. by rewrite insert_insert_eq.
Qed.

Lemma PATCH_twice_is_merged_PATCH_witness :
  let rename := mkPatch (Some (JStr "Buy oat milk")) None None in
  let complete := mkPatch None (Some (JStr "2l")) (Some (JBool true)) in
  let nothing := mkPatch None None None in
  status (PATCH alice 3 "t1" (Some rename) aliceTable).1 = 200
  /\ (PATCH alice 4 "t1" (Some complete)
        (PATCH alice 3 "t1" (Some rename) aliceTable).2).2
     = (PATCH alice 4 "t1"
          (Some (mkPatch (Some (JStr "Buy oat milk")) (Some (JStr "2l"))
                   (Some (JBool true))))
          aliceTable).2
  /\ PATCH alice 4 "t1" (Some nothing)
       (PATCH alice 3 "t1" (Some rename) aliceTable).2
     = PATCH alice 3 "t1" (Some rename) aliceTable.
Proof.
  intros rename complete nothing. split; [vm_compute; reflexivity|].
  assert (Hfirst : PATCH alice 3 "t1" (Some rename) aliceTable
                   = ((PATCH alice 3 "t1" (Some rename) aliceTable).1,
                      (PATCH alice 3 "t1" (Some rename) aliceTable).2))
    by (by destruct (PATCH alice 3 "t1" (Some rename) aliceTable)).
  split.
  - destruct (PATCH_twice_is_merged_PATCH alice 3 4 "t1" rename complete aliceTable
                _ _ Hfirst eq_refl) as (_ & Hmerged).
    destruct (Hmerged eq_refl) as (_ & Htable).
    apply Htable. vm_compute. reflexivity.
  - destruct (PATCH_twice_is_merged_PATCH alice 3 4 "t1" rename nothing aliceTable
                _ _ Hfirst eq_refl) as (Hnothing & _).
    rewrite (Hnothing eq_refl). symmetry. exact Hfirst.
Defined.

End StoreAccess.

(** ** The session: loading, unreadable bodies, ids *)

Section SessionMore.

Import Js Session.

Context {W : Type}.
Variable fetch : forall A : Type, Request A -> W -> FetchResult A * W.

Implicit Types (st : State) (w : W) (key : string).

(** X8.  When the response to the List fetch is ok and its body reads as
    a list, a load or refresh fulfils, that list replaces whatever todos were
    held, the error left by an earlier failure is cleared, [loading] is
    cleared and nothing is logged. *)
Theorem successful_load_replaces_list st w data w' :
  fetch _ GetTodos w = (RespondsOk (inr data), w') ->
  (exists st', refreshTodos fetch st w = (Fulfilled, st', w')
     /\ todos st' = data /\ error st' = None
     /\ loading st' = false /\ console st' = console st)
  /\ (exists st0, mount fetch w = (Fulfilled, st0, w')
     /\ todos st0 = data /\ error st0 = None /\ loading st0 = false).
Proof.
  intros Hf. unfold mount, refreshTodos, fetchTodos. rewrite Hf. simpl.
  split; eexists; (split; [reflexivity|]); done.
Qed.

(** X9.  When the response is ok but its body cannot be read ([json()]
    rejects with [e]): [addTodo], [updateTodo] and [toggleComplete] reject
    with [e] and keep the list; [fetchTodos] keeps the list and sets its
    error; [deleteTodo], which never reads the body, fulfils and drops the
    entries with the id. *)
Theorem unreadable_body st w e :
  (forall d w',
      fetch _ (PostTodo d) w = (RespondsOk (inl e), w') ->
      exists st', addTodo fetch d st w = (Rejected e, st', w')
        /\ todos st' = todos st)
  /\ (forall key u w',
      fetch _ (PatchTodo key u) w = (RespondsOk (inl e), w') ->
      exists st', updateTodo fetch key u st w = (Rejected e, st', w')
        /\ todos st' = todos st)
  /\ (forall key b w',
      fetch _ (PatchTodo key (mkUpdates None None None (Some (negb b)) None None)) w
        = (RespondsOk (inl e), w') ->
      exists st', toggleComplete fetch key b st w = (Rejected e, st', w')
        /\ todos st' = todos st)
  /\ (forall w',
      fetch _ GetTodos w = (RespondsOk (inl e), w') ->
      exists st', fetchTodos fetch st w = (Fulfilled, st', w')
        /\ todos st' = todos st
        /\ error st' = Some "Failed to load todos. Please try again later.")
  /\ (forall key w',
      fetch _ (DeleteTodo key) w = (RespondsOk (inl e), w') ->
      exists st', deleteTodo fetch key st w = (Fulfilled, st', w')
        /\ Forall (fun todo => id todo <> key) (todos st')
        /\ error st' = None).
Proof.
  repeat split.
  - intros d w' Hf. unfold addTodo. rewrite Hf. simpl. eauto.
  - intros key u w' Hf. unfold updateTodo. rewrite Hf. simpl. eauto.
  - intros key b w' Hf. unfold toggleComplete. rewrite Hf. simpl. eauto.
  - intros w' Hf. unfold fetchTodos. rewrite Hf. simpl. eauto.
  - intros key w' Hf. unfold deleteTodo. rewrite Hf. simpl.
    eexists; split; [reflexivity|]. simpl. split; [|done].
    apply Forall_forall. intros todo Hin.
    by apply list_elem_of_filter in Hin as [? _].
Qed.

Lemma replaceById_absent key updatedTodo (l : list Todo) :
  Forall (fun todo => id todo <> key) l -> replaceById key updatedTodo l = l.
Proof.
  unfold replaceById. induction 1 as [|todo l Hne _ IH]; [done|].
  rewrite fmap_cons, IH. by rewrite bool_decide_eq_false_2.
Qed.

Lemma removeById_absent key (l : list Todo) :
  Forall (fun todo => id todo <> key) l -> removeById key l = l.
Proof.
  unfold removeById. induction 1 as [|todo l Hne _ IH]; [done|].
  rewrite filter_cons_True by done. by rewrite IH.
Qed.

(** X10.  For an id that no entry of the list has, a successful
    [updateTodo] or [toggleComplete] leaves the list as it is (the returned
    record is not put in), and so does a successful [deleteTodo]. *)
Theorem mutation_of_absent_id st w key :
  Forall (fun todo => id todo <> key) (todos st) ->
  (forall u updatedTodo w',
      fetch _ (PatchTodo key u) w = (RespondsOk (inr updatedTodo), w') ->
      exists st', updateTodo fetch key u st w = (Fulfilled, st', w')
        /\ todos st' = todos st)
  /\ (forall b updatedTodo w',
      fetch _ (PatchTodo key (mkUpdates None None None (Some (negb b)) None None)) w
        = (RespondsOk (inr updatedTodo), w') ->
      exists st', toggleComplete fetch key b st w = (Fulfilled, st', w')
        /\ todos st' = todos st)
  /\ (forall j w',
      fetch _ (DeleteTodo key) w = (RespondsOk j, w') ->
      exists st', deleteTodo fetch key st w = (Fulfilled, st', w')
        /\ todos st' = todos st).
Proof.
  intros Habs. repeat split.
  - intros u updatedTodo w' Hf. unfold updateTodo. rewrite Hf. simpl.
    eexists; split; [reflexivity|]. simpl. by apply replaceById_absent.
  - intros b updatedTodo w' Hf. unfold toggleComplete. rewrite Hf. simpl.
    eexists; split; [reflexivity|]. simpl. by apply replaceById_absent.
  - intros j w' Hf. unfold deleteTodo. rewrite Hf. simpl.
    eexists; split; [reflexivity|]. simpl. by apply removeById_absent.
Qed.

Lemma replaceById_ids key updatedTodo (l : list Todo) :
  id updatedTodo = key -> id <$> replaceById key updatedTodo l = id <$> l.
Proof.
  intros Hid. unfold replaceById. induction l as [|todo l IH]; [done|].
  rewrite !fmap_cons, IH. f_equal. case_bool_decide; congruence.
Qed.

(** X11.  The ids of the list stay pairwise distinct: [addTodo] keeps them
    so when the returned record has an id not in the list; [updateTodo]
    leaves the sequence of ids as it is when the returned record has the
    requested id; [deleteTodo] keeps them so and leaves no entry with the
    id. *)
Theorem distinct_ids_kept st w :
  NoDup (id <$> todos st) ->
  (forall d newTodo w',
      fetch _ (PostTodo d) w = (RespondsOk (inr newTodo), w') ->
      id newTodo ∉ id <$> todos st ->
      NoDup (id <$> todos (addTodo fetch d st w).1.2))
  /\ (forall key u updatedTodo w',
      fetch _ (PatchTodo key u) w = (RespondsOk (inr updatedTodo), w') ->
      id updatedTodo = key ->
      id <$> todos (updateTodo fetch key u st w).1.2 = id <$> todos st)
  /\ (forall key j w',
      fetch _ (DeleteTodo key) w = (RespondsOk j, w') ->
      NoDup (id <$> todos (deleteTodo fetch key st w).1.2)
      /\ key ∉ id <$> todos (deleteTodo fetch key st w).1.2).
Proof.
  intros Hnd. split; [|split].
  - intros d newTodo w' Hf Hfresh. unfold addTodo. rewrite Hf. simpl.
    by apply NoDup_cons.
  - intros key u updatedTodo w' Hf Hid. unfold updateTodo. rewrite Hf. simpl.
    by apply replaceById_ids.
  - intros key j w' Hf. unfold deleteTodo. rewrite Hf. simpl.
    unfold removeById. split.
    + assert (Hsub : sublist (id <$> filter (fun todo => id todo <> key) (todos st))
                       (id <$> todos st))
        by apply fmap_sublist, sublist_filter.
      by eapply sublist_NoDup.
    + intros (todo & -> & Hin)%list_elem_of_fmap.
      by apply list_elem_of_filter in Hin as [? _].
Qed.

(** X12.  Each operation of the context calls [fetch] exactly once: the
    recorded calls grow by the one request of the operation, and the world
    is the one that this request leaves. *)
Theorem one_request_per_operation st w log :
  (fetchTodos (recording fetch) st (w, log)).2
  = ((fetch _ GetTodos w).2,
     (log ++ [mkFetchArgs "/api/todos" HttpGET None None])%list)
  /\ (forall d,
      (addTodo (recording fetch) d st (w, log)).2
      = ((fetch _ (PostTodo d) w).2,
         (log ++ [mkFetchArgs "/api/todos" HttpPOST (Some "application/json")
                    (Some (DataJson d))])%list))
  /\ (forall key u,
      (updateTodo (recording fetch) key u st (w, log)).2
      = ((fetch _ (PatchTodo key u) w).2,
         (log ++ [mkFetchArgs ("/api/todos/" +:+ key) HttpPATCH
                    (Some "application/json") (Some (UpdatesJson u))])%list))
  /\ (forall key,
      (deleteTodo (recording fetch) key st (w, log)).2
      = ((fetch _ (DeleteTodo key) w).2,
         (log ++ [mkFetchArgs ("/api/todos/" +:+ key) HttpDELETE None None])%list)).
Proof.
  repeat split.
  - unfold fetchTodos, recording. simpl.
    by destruct (fetch _ GetTodos w) as [res w1].
  - intros d. unfold addTodo, recording. simpl.
    destruct (fetch _ (PostTodo d) w) as [res w1]. simpl.
    by destruct (jsonOrThrow _ res).
  - intros key u. unfold updateTodo, recording. simpl.
    destruct (fetch _ (PatchTodo key u) w) as [res w1]. simpl.
    by destruct (jsonOrThrow _ res).
  - intros key. unfold deleteTodo, recording. simpl.
    destruct (fetch _ (DeleteTodo key) w) as [res w1]. simpl.
    by destruct (okOrThrow _ res).
Qed.

(** X13.  How the patches of the list compose, for a record [x] with the
    id [key]: replacing by [x] and then by [y] is replacing by [y]; removing
    after replacing, or after putting [x] in front, is removing; and a
    removal of another id commutes with the replacement. *)
Theorem list_patches_compose key (x y : Todo) (l : list Todo) :
  id x = key ->
  replaceById key y (replaceById key x l) = replaceById key y l
  /\ removeById key (replaceById key x l) = removeById key l
  /\ removeById key (x :: l) = removeById key l
  /\ (forall key2, key2 <> key ->
        removeById key2 (replaceById key x l)
        = replaceById key x (removeById key2 l)).
Proof.
  intros Hx. unfold replaceById, removeById. repeat split.
  - induction l as [|todo l IH]; [done|]. rewrite !fmap_cons, IH. f_equal.
    destruct (decide (id todo = key)) as [Hid|Hid].
    + rewrite (bool_decide_eq_true_2 _ Hid). by rewrite bool_decide_eq_true_2.
    + rewrite (bool_decide_eq_false_2 _ Hid). by rewrite bool_decide_eq_false_2.
  - induction l as [|todo l IH]; [done|]. rewrite fmap_cons, !filter_cons, IH.
    destruct (decide (id todo = key)) as [Hid|Hid].
    + rewrite (bool_decide_eq_true_2 _ Hid).
      rewrite decide_False by (intros Hne; by apply Hne).
      by rewrite decide_False by (intros Hne; by apply Hne).
    + rewrite (bool_decide_eq_false_2 _ Hid). by rewrite !decide_True.
  - by rewrite filter_cons_False by (intros Hne; by apply Hne).
  - intros key2 Hne. induction l as [|todo l IH]; [done|].
    rewrite fmap_cons, !filter_cons, IH.
    destruct (decide (id todo = key)) as [Hid|Hid].
    + rewrite (bool_decide_eq_true_2 _ Hid).
      rewrite decide_True by congruence. rewrite decide_True by congruence.
      rewrite fmap_cons. by rewrite bool_decide_eq_true_2.
    + rewrite (bool_decide_eq_false_2 _ Hid).
      destruct (decide (id todo <> key2)); [|done].
      rewrite fmap_cons. by rewrite bool_decide_eq_false_2.
Qed.

Lemma run_outcome m st w :
  let '(settled, st', _) := run fetch m st w in
  loading st' = loading st
  /\ match settled with
     | Fulfilled => error st' = None /\ console st' = console st
     | Rejected e =>
         todos st' = todos st
         /\ exists label msg,
              console st' = (console st ++ [(label, e)])%list
              /\ error st' = Some msg /\ truthy msg = true
     end.
Proof.
  destruct m as [d | key u | key | key b]; simpl;
    unfold addTodo, updateTodo, deleteTodo, toggleComplete.
  - destruct (fetch _ (PostTodo d) w) as [res w1].
    destruct (jsonOrThrow _ res); simpl; eauto 10.
  - destruct (fetch _ (PatchTodo key u) w) as [res w1].
    destruct (jsonOrThrow _ res); simpl; eauto 10.
  - destruct (fetch _ (DeleteTodo key) w) as [res w1].
    destruct (okOrThrow _ res); simpl; eauto 10.
  - destruct (fetch _ (PatchTodo key _) w) as [res w1].
    destruct (jsonOrThrow _ res); simpl; eauto 10.
Qed.

(** X14.  No mutation touches [loading].  One that fulfils has cleared
    the error and logged nothing; one that rejects has kept the list, logged
    one line carrying the exception it rejects with, and set a non-empty
    error message. *)
Theorem mutation_outcome m st w :
  let '(settled, st', _) := run fetch m st w in
  loading st' = loading st
  /\ match settled with
     | Fulfilled => error st' = None /\ console st' = console st
     | Rejected e =>
         todos st' = todos st
         /\ exists label msg,
              console st' = (console st ++ [(label, e)])%list
              /\ error st' = Some msg /\ truthy msg = true
     end.
Proof.
  destruct m as [d | key u | key | key b]; simpl;
    unfold addTodo, updateTodo, deleteTodo, toggleComplete.
  - destruct (fetch _ (PostTodo d) w) as [res w1].
    destruct res as [e | status | [e | newTodo]]; simpl; eauto 10.
  - destruct (fetch _ (PatchTodo key u) w) as [res w1].
    destruct res as [e | status | [e | updatedTodo]]; simpl; eauto 10.
  - destruct (fetch _ (DeleteTodo key) w) as [res w1].
    destruct res as [e | status | j]; simpl; eauto 10.
  - destruct (fetch _ (PatchTodo key _) w) as [res w1].
    destruct res as [e | status | [e | updatedTodo]]; simpl; eauto 10.
Qed.

(** X15.  What [TodoList] shows.  Before the load it shows the loading
    line.  After a load whose response was ok and read as a list it shows
    that list (the empty notice when it is empty); after a load that failed
    it shows the load error, the todos held being kept but hidden.  After a
    mutation made when nothing was loading: the returned record in front of
    the list after an [addTodo] that fulfilled; the list with the entries of
    the id replaced after an [updateTodo], and without them after a
    [deleteTodo]; and only the error box after any mutation that rejected,
    although the todos are still held. *)
Theorem list_view st w :
  TodoList.render initial = TodoList.LoadingView
  /\ (forall data w',
      fetch _ GetTodos w = (RespondsOk (inr data), w') ->
      let '(_, st', _) := fetchTodos fetch st w in
      todos st' = data /\ TodoList.render st' = TodoList.listOrEmpty data)
  /\ (forall res w' err,
      fetch _ GetTodos w = (res, w') ->
      jsonOrThrow "Failed to fetch todos" res = inl err ->
      let '(_, st', _) := fetchTodos fetch st w in
      todos st' = todos st
      /\ TodoList.render st'
         = TodoList.ErrorView "Failed to load todos. Please try again later.")
  /\ (loading st = false ->
      (forall d newTodo w',
          fetch _ (PostTodo d) w = (RespondsOk (inr newTodo), w') ->
          TodoList.render (addTodo fetch d st w).1.2
          = TodoList.ItemsView (newTodo :: todos st))
      /\ (forall key u updatedTodo w',
          fetch _ (PatchTodo key u) w = (RespondsOk (inr updatedTodo), w') ->
          TodoList.render (updateTodo fetch key u st w).1.2
          = TodoList.listOrEmpty (replaceById key updatedTodo (todos st)))
      /\ (forall key j w',
          fetch _ (DeleteTodo key) w = (RespondsOk j, w') ->
          TodoList.render (deleteTodo fetch key st w).1.2
          = TodoList.listOrEmpty (removeById key (todos st)))
      /\ (forall m,
          let '(settled, st', _) := run fetch m st w in
          match settled with
          | Fulfilled => TodoList.render st' = TodoList.listOrEmpty (todos st')
          | Rejected _ =>
              todos st' = todos st
              /\ exists msg, error st' = Some msg
                             /\ TodoList.render st' = TodoList.ErrorView msg
          end)).
Proof.
  split; [reflexivity|]. split; [|split].
  - intros data w' Hf. unfold fetchTodos. rewrite Hf. simpl. done.
  - intros res w' err Hf Herr. unfold fetchTodos. rewrite Hf, Herr. simpl. done.
  - intros Hready. unfold TodoList.render. repeat split.
    + intros d newTodo w' Hf. unfold addTodo. rewrite Hf. simpl.
      by rewrite Hready.
    + intros key u updatedTodo w' Hf. unfold updateTodo. rewrite Hf. simpl.
      by rewrite Hready.
    + intros key j w' Hf. unfold deleteTodo. rewrite Hf. simpl.
      by rewrite Hready.
    + intros m. pose proof (run_outcome m st w) as Hout.
      destruct (run fetch m st w) as [[settled st'] w1].
      destruct Hout as (Hload & Hout).
      rewrite Hload, Hready. destruct settled as [|e].
      * destruct Hout as (-> & _). done.
      * destruct Hout as (Htodos & label & msg & _ & -> & ->). eauto.
Qed.

End SessionMore.

(** ** The forms *)

Section FormFacts.

Import Js Session.

Context {W : Type}.
Variable fetch : forall A : Type, Request A -> W -> FetchResult A * W.

Lemma mounted_ready st key :
  Screen.mounted st key = true ->
  loading st = false /\ key ∈ id <$> todos st
  /\ TodoList.render st = TodoList.ItemsView (todos st).
Proof.
  unfold Screen.mounted, TodoList.render, TodoList.listOrEmpty.
  destruct (loading st); [done|].
  destruct (error st) as [msg|]; [destruct (truthy msg); [done|]|];
    (destruct (todos st) as [|t ts]; [done|]);
    intros Hin%bool_decide_eq_true; done.
Qed.

(** X16.  [handleSave] on the screen, for an item that is rendered.  A
    blank title is refused in the form: the item shows "Title cannot be
    empty" and neither the session nor the world changes.  Otherwise one
    update with the trimmed fields is sent.  When it succeeds with a record
    of the same id, the item is still rendered, closed, without error and not
    submitting, with what was typed still in its cells.  When it fails, the
    provider's error makes the list component show only the error box: the
    item is no longer rendered and its cells are gone, the todos being
    kept. *)
Theorem handleSave_outcome todo (l : TodoItem.Local) st w :
  Screen.mounted st (id todo) = true ->
  (blank (TodoItem.editedTitle l) = true ->
     Screen.save fetch todo l st w
     = (Some (TodoItem.setLocalError (Some "Title cannot be empty") l), st, w))
  /\ (blank (TodoItem.editedTitle l) = false ->
      forall res w',
        fetch _ (PatchTodo (id todo)
                   (mkUpdates None (Some (trim (TodoItem.editedTitle l)))
                      (Some (orNull (trim (TodoItem.editedDescription l))))
                      None None None)) w = (res, w') ->
        match jsonOrThrow "Failed to update todo" res with
        | inr updatedTodo =>
            id updatedTodo = id todo ->
            exists st',
              Screen.save fetch todo l st w
              = (Some (TodoItem.mkLocal false (TodoItem.editedTitle l)
                         (TodoItem.editedDescription l) false None), st', w')
              /\ todos st' = replaceById (id todo) updatedTodo (todos st)
              /\ error st' = None
        | inl err =>
            exists st',
              Screen.save fetch todo l st w = (None, st', w')
              /\ todos st' = todos st
              /\ TodoList.render st'
                 = TodoList.ErrorView "Failed to update todo. Please try again."
        end).
Proof.
  intros Hmounted. pose proof (mounted_ready st (id todo) Hmounted)
    as (Hready & Hin & Hview).
  unfold Screen.save, TodoItem.handleSave. rewrite truthy_trim.
  split; intros ->; simpl.
  - by rewrite Hmounted.
  - intros res w' Hf. unfold updateTodo. rewrite Hf.
    destruct (jsonOrThrow _ res) as [err|updatedTodo]; simpl.
    + unfold Screen.mounted, TodoList.render. simpl. rewrite Hready. simpl.
      eexists. split; [reflexivity|]. simpl. by rewrite Hready.
    + intros Hid. eexists.
      assert (Hshown : Screen.mounted
                (setError None
                   (setTodos (replaceById (id todo) updatedTodo) st)) (id todo)
              = true).
      { unfold Screen.mounted, TodoList.render. simpl. rewrite Hready.
        rewrite <- (replaceById_ids (id todo) updatedTodo (todos st) Hid) in Hin.
        destruct (replaceById (id todo) updatedTodo (todos st)) as [|t ts].
        - by apply not_elem_of_nil in Hin.
        - simpl. apply bool_decide_eq_true. exact Hin. }
      rewrite Hshown. done.
Qed.

(** X17.  [handleSubmit].  A blank title is refused in the form with
    "Title is required" and nothing else changes.  Otherwise the trimmed
    fields go through [addTodo], always with [completed] false; when it
    fulfilled the form is emptied and shows the success line; when it
    rejected the form keeps what was typed and shows an error, and the list
    is the one before. *)
Theorem handleSubmit_outcome (l : TodoForm.Local) st w :
  (blank (TodoForm.title l) = true ->
     TodoForm.handleSubmit fetch l st w
     = (TodoForm.mkLocal (TodoForm.title l) (TodoForm.description l)
          (TodoForm.isSubmitting l) (Some "Title is required")
          (TodoForm.success l), st, w))
  /\ (blank (TodoForm.title l) = false ->
      let '(settled, st1, w1) :=
        addTodo fetch
          (mkTodoData (trim (TodoForm.title l))
             (orNull (trim (TodoForm.description l))) false) st w in
      let '(l', st', w') := TodoForm.handleSubmit fetch l st w in
      w' = w1
      /\ TodoForm.isSubmitting l' = false
      /\ match settled with
         | Fulfilled =>
             l' = TodoForm.mkLocal "" "" false None
                    (Some "Todo added successfully!")
             /\ st' = st1
         | Rejected e =>
             TodoForm.title l' = TodoForm.title l
             /\ TodoForm.description l' = TodoForm.description l
             /\ TodoForm.error l' = Some "Failed to create todo. Please try again."
             /\ todos st' = todos st
         end).
Proof.
  unfold TodoForm.handleSubmit. rewrite truthy_trim. split; intros ->; simpl; [done|].
  pose proof (run_outcome fetch (Add
                (mkTodoData (trim (TodoForm.title l))
                   (orNull (trim (TodoForm.description l))) false)) st w) as Hout.
  simpl in Hout.
  destruct (addTodo fetch _ st w) as [[settled st1] w1].
  destruct settled as [|e]; simpl; [done|].
  destruct Hout as (_ & Htodos & _). done.
Qed.

End FormFacts.

(** ** The session against the by-id route *)

Section SystemMore.

Import Js Session System.

Variable toISOString : Z -> string.

Implicit Types (db : Store.Table) (env : Env) (st : State).

Lemma isOk_refusal code : (400 < code)%Z -> isOk code = false.
Proof. intros Hcode. unfold isOk. apply andb_false_iff. right. lia. Qed.

(** The two ways an update of the client is served. *)
Lemma serve_patch_cases env key u db :
  (exists code,
      serve toISOString env _ (PatchTodo key u) db = (RespondsNotOk code, db)
      /\ Store.status
           (Store.PATCH (session env) (now env) key (Some (patchJsonOf u)) db).1
         <> 200)
  \/ (exists usr old new,
        Store.signedIn (session env) = Some usr /\ db !! key = Some old
        /\ Store.userId old = Store.user_id usr
        /\ Store.id new = Store.id old /\ Store.userId new = Store.userId old
        /\ Store.PATCH (session env) (now env) key (Some (patchJsonOf u)) db
           = (Store.mkResponse 200 (Store.TodoJson new), <[key := new]> db)
        /\ serve toISOString env _ (PatchTodo key u) db
           = (RespondsOk (inr (wire toISOString new)), <[key := new]> db)).
Proof.
  unfold serve.
  destruct (PATCH_cases (session env) (now env) key (Some (patchJsonOf u)) db)
    as [(code & msg & Heq & Hcode & Hrange)
       | (usr & b & old & new & Hu & _ & Hold & Hown & Hup & Heq)];
    rewrite Heq.
  - left. exists code. unfold observe. simpl. by rewrite isOk_refusal.
  - right. exists usr, old, new.
    apply prismaUpdate_row in Hup
      as (old' & Hold' & _ & _ & _ & _ & Hi & Hus & _).
    rewrite Hold in Hold'. injection Hold' as <-. by repeat split.
Qed.

Lemma serve_patch_refused env key u db :
  Store.status (Store.PATCH (session env) (now env) key (Some (patchJsonOf u)) db).1
    <> 200 ->
  exists status,
    serve toISOString env _ (PatchTodo key u) db = (RespondsNotOk status, db).
Proof.
  intros Hrefused.
  destruct (serve_patch_cases env key u db)
    as [(code & Heq & _) | (usr & old & new & _ & _ & _ & _ & _ & Hpatch & _)];
    [eauto|].
  rewrite Hpatch in Hrefused. done.
Qed.

Lemma serve_delete env key db :
  serve toISOString env _ (DeleteTodo key) db
  = if bool_decide (Store.status (Store.DELETE (session env) key db).1 = 200)
    then (RespondsOk (inr tt), delete key db)
    else (RespondsNotOk (Store.status (Store.DELETE (session env) key db).1), db).
Proof.
  unfold serve.
  destruct (DELETE_cases (session env) key db)
    as [(code & msg & -> & Hcode & Hrange) | (u & old & msg & _ & _ & _ & ->)];
    simpl.
  - rewrite bool_decide_eq_false_2 by done. unfold observe. simpl.
    by rewrite isOk_refusal.
  - done.
Qed.

Lemma PATCH_ok_shape session now key reqBody db resp db' :
  Store.PATCH session now key reqBody db = (resp, db') ->
  Store.status resp = 200 ->
  exists u old new,
    Store.signedIn session = Some u /\ db !! key = Some old
    /\ Store.userId old = Store.user_id u
    /\ Store.body resp = Store.TodoJson new /\ db' = <[key := new]> db
    /\ Store.userId new = Store.userId old.
Proof.
  destruct (PATCH_cases session now key reqBody db)
    as [(code & msg & -> & Hcode & _)
       | (u & b & old & new & Hu & _ & Hold & Hown & Hup & ->)].
  - intros [= <- <-] Hok. done.
  - intros [= <- <-] _. exists u, old, new.
    apply prismaUpdate_row in Hup
      as (old' & Hold' & _ & _ & _ & _ & _ & Hus & _).
    rewrite Hold in Hold'. injection Hold' as <-. by repeat split.
Qed.

(** X18.  Saved through the form by the owner, a title that is not blank
    is stored trimmed, so the stored title is not blank; the description is
    stored trimmed, or as null when nothing is left of it, [completed] is
    kept, and the form closes without an error.  That is so when the trimmed
    texts are ones the database takes; when one of them holds U+0000 the save
    is refused, and neither the table nor the list changes. *)
Theorem handleSave_stores_trimmed_title env usr todo (l : TodoItem.Local) st db row :
  Store.signedIn (session env) = Some usr ->
  db !! id todo = Some row ->
  Store.userId row = Store.user_id usr ->
  blank (TodoItem.editedTitle l) = false ->
  if Store.hasNul (trim (TodoItem.editedTitle l))
     || Store.hasNul (trim (TodoItem.editedDescription l))
  then
    exists l' st',
      TodoItem.handleSave (serve toISOString env) todo l st db = (l', st', db)
      /\ todos st' = todos st
  else
    exists l' st' row',
      TodoItem.handleSave (serve toISOString env) todo l st db
        = (l', st', <[id todo := row']> db)
      /\ Store.title row' = trim (TodoItem.editedTitle l)
      /\ blank (Store.title row') = false
      /\ Store.description row' = orNull (trim (TodoItem.editedDescription l))
      /\ Store.completed row' = Store.completed row
      /\ TodoItem.isEditing l' = false
      /\ TodoItem.error l' = None
      /\ Forall (fun t => id t = id todo -> t = wire toISOString row') (todos st').
Proof.
  intros Hu Hrow Hown Hblank. unfold TodoItem.handleSave.
  rewrite truthy_trim, Hblank. simpl. unfold updateTodo.
  set (u := mkUpdates None (Some (trim (TodoItem.editedTitle l)))
              (Some (orNull (trim (TodoItem.editedDescription l)))) None None None).
  destruct (Store.hasNul (trim (TodoItem.editedTitle l))
            || Store.hasNul (trim (TodoItem.editedDescription l))) eqn:Hnul.
  - destruct (serve_patch_refused env (id todo) u db) as [code ->].
    + rewrite (PATCH_by_owner _ usr _ _ _ _ row Hu Hrow Hown).
      unfold Store.prismaUpdate. rewrite Hrow. subst u. simpl.
      unfold orNull in *.
      destruct (Store.hasNul (trim (TodoItem.editedTitle l))); [done|].
      simpl in Hnul.
      destruct (trim (TodoItem.editedDescription l)) as [|c rest]; [done|].
      simpl in *. by rewrite Hnul.
    + simpl. eauto.
  - apply orb_false_iff in Hnul as [Ht Hd].
    rewrite (serve_patch_by_owner toISOString env usr (id todo) u db row Hu Hrow Hown).
    2:{ unfold storableUpdates, u, orNull. simpl. rewrite Ht. simpl.
        destruct (truthy _); [by rewrite Hd | done]. }
    simpl. eexists _, _, _. split; [reflexivity|]. simpl.
    split; [done|]. split; [by apply blank_trim|].
    repeat (split; [done|]). apply replaceById_entries.
Qed.




Lemma inSync_logged uid label err msg st db :
  inSync toISOString uid st db ->
  inSync toISOString uid (setError msg (consoleError label err st)) db.
Proof. done. Qed.





End SystemMore.

(** ** The pages *)

Section PageFacts.

Import Js Session Pages.

Context {W : Type}.
Variable fetch : forall A : Type, Request A -> W -> FetchResult A * W.

(** X21.  [Home] returns the todo content exactly when it is mounted and
    the visitor is authenticated, and never throws; it pushes the sign-in
    route, with [/] to come back to, exactly when it is mounted and the
    visitor is unauthenticated, and then returns nothing; and a render calls
    the todo API only with the content, once, for the list. *)
Theorem home_page_gate mounted status w log :
  (Home mounted status = PageContent <-> mounted = true /\ status = Authenticated)
  /\ (forall e, Home mounted status <> PageThrows e)
  /\ (HomeRedirect mounted status = Some "/auth/signin?callbackUrl=/" <->
      mounted = true /\ status = Unauthenticated)
  /\ (HomeRedirect mounted status <> None -> Home mounted status = PageNull)
  /\ (visitHome (recording fetch) mounted status (w, log)).2.2
     = match Home mounted status with
       | PageContent => (log ++ [mkFetchArgs "/api/todos" HttpGET None None])%list
       | _ => log
       end.
Proof.
  destruct mounted, status; simpl; repeat split; try done;
    try (intros [? ?]; done).
  unfold visitHome, mount, fetchTodos, recording. simpl.
  by destruct (fetch _ GetTodos w) as [res w1].
Qed.

(** X22.  [TodoPage] has the gate of [Home], with [/todos] to come back
    to, but mounts no provider: given a context it returns what [Home]
    returns; given none, its content throws the error of [useTodos], which
    happens exactly when it is mounted and the visitor is authenticated. *)
Theorem todo_page_needs_provider {C : Type} (ambient : option C) mounted status :
  (forall c, ambient = Some c -> TodoPage ambient mounted status = Home mounted status)
  /\ (ambient = None ->
      (TodoPage ambient mounted status
       = PageThrows (Error "useTodos must be used within a TodoProvider")
       <-> mounted = true /\ status = Authenticated)
      /\ TodoPage ambient mounted status <> PageContent)
  /\ (TodoPageRedirect mounted status = Some "/auth/signin?callbackUrl=/todos" <->
      mounted = true /\ status = Unauthenticated).
Proof.
  split; [|split].
  - intros c ->. by destruct mounted, status.
  - intros ->. destruct mounted, status; simpl; repeat split; try done;
      intros [? ?]; done.
  - destruct mounted, status; simpl; split; try done; intros [? ?]; done.
Qed.

End PageFacts.

(** ** The further properties at work on the sample worlds *)

Section MoreWitnesses.

Import Js Session System Scenario.

Lemma unreadable_body_witness :
  (exists st',
      deleteTodo garbled "t1" loaded tt = (Fulfilled, st', tt)
      /\ todos st' = [])
  /\ (exists st',
      updateTodo garbled "t1" (mkUpdates None (Some "Tea") None None None None)
        loaded tt
        = (Rejected (SyntaxError "Unexpected token <"), st', tt)
      /\ todos st' = [shownMilk]).
Proof.
  destruct (unreadable_body garbled loaded tt (SyntaxError "Unexpected token <"))
    as (_ & Hupd & _ & _ & Hdel).
  split.
  - destruct (Hdel "t1" tt eq_refl) as (st' & Hrun & _ & _).
    exists st'. split; [exact Hrun|].
    clear -Hrun. vm_compute in Hrun. injection Hrun as <-. reflexivity.
  - exact (Hupd "t1" _ tt eq_refl).
Defined.

Lemma mutation_of_absent_id_witness :
  Forall (fun todo => id todo <> "t7") (todos loaded)
  /\ exists st',
       toggleComplete (serve stamp (asAlice 5 "t2")) "t7" false loaded twoTabsTable
         = (Fulfilled, st',
            <["t7" := Store.mkRow "t7" "Make tea" None true "alice" 3 5]> twoTabsTable)
       /\ todos st' = [shownMilk].
Proof.
  assert (Habs : Forall (fun todo => id todo <> "t7") (todos loaded))
    by (repeat constructor; discriminate).
  split; [exact Habs|].
  destruct (mutation_of_absent_id (serve stamp (asAlice 5 "t2")) loaded twoTabsTable
              "t7" Habs) as (_ & Htoggle & _).
  apply (Htoggle false
           (wire stamp (Store.mkRow "t7" "Make tea" None true "alice" 3 5))).
  vm_compute. reflexivity.
Defined.

Lemma distinct_ids_kept_witness :
  NoDup (id <$> todos loaded)
  /\ NoDup (id <$> todos
              (addTodo (serve stamp (asAlice 5 "t2")) (mkTodoData "Walk" None false)
                 loaded aliceTable).1.2)
  /\ id <$> todos
              (updateTodo (serve stamp (asAlice 5 "t2")) "t1"
                 (mkUpdates None (Some "Buy oat milk") None None None None)
                 loaded aliceTable).1.2
     = ["t1"].
Proof.
  assert (Hnd : NoDup (id <$> todos loaded)).
  { apply NoDup_cons. split; [apply not_elem_of_nil | apply NoDup_nil_2]. }
  destruct (distinct_ids_kept (serve stamp (asAlice 5 "t2")) loaded aliceTable Hnd)
    as (Hadd & Hupd & _).
  split; [exact Hnd|]. split.
  - apply (Hadd _ (mkTodo "t2" "Walk" None false "5" "5")
             (<["t2" := Store.mkRow "t2" "Walk" None false "alice" 5 5]> aliceTable)).
    + vm_compute. reflexivity.
    + intros [Heq | Hin%not_elem_of_nil]%elem_of_cons; [discriminate | done].
  - apply (Hupd "t1" _
             (wire stamp (Store.mkRow "t1" "Buy oat milk" None false "alice" 1 5))
             (<["t1" := Store.mkRow "t1" "Buy oat milk" None false "alice" 1 5]>
                aliceTable)).
    + vm_compute. reflexivity.
    + reflexivity.
Defined.

Lemma list_patches_compose_witness :
  let walk := mkTodo "t2" "Walk" None false "5" "5" in
  let walked := mkTodo "t2" "Walk" None true "5" "6" in
  id walk = "t2"
  /\ removeById "t2" (replaceById "t2" walk [walked; shownMilk]) = [shownMilk]
  /\ removeById "t2" (walk :: [shownMilk]) = [shownMilk]
  /\ removeById "t1" (replaceById "t2" walk [walked; shownMilk]) = [walk].
Proof.
  intros walk walked.
  destruct (list_patches_compose "t2" walk walked [walked; shownMilk] eq_refl)
    as (_ & Hrm & _ & Hcomm).
  destruct (list_patches_compose "t2" walk walked [shownMilk] eq_refl)
    as (_ & _ & Hfront & _).
  split; [reflexivity|]. split; [|split].
  - rewrite Hrm. reflexivity.
  - rewrite Hfront. reflexivity.
  - rewrite Hcomm by discriminate. reflexivity.
Defined.

Lemma handleSave_stores_trimmed_title_witness :
  let typed := TodoItem.mkLocal true "  Buy oat milk " "   " false None in
  blank (TodoItem.editedTitle typed) = false
  /\ exists l' st',
       TodoItem.handleSave (serve stamp (asAlice 5 "t2")) shownMilk typed loaded
         aliceTable
       = (l', st',
          <["t1" := Store.mkRow "t1" "Buy oat milk" None false "alice" 1 5]>
            aliceTable)
       /\ TodoItem.isEditing l' = false.
Proof.
  intros typed. split; [reflexivity|].
  destruct (handleSave_stores_trimmed_title stamp (asAlice 5 "t2")
              (Store.mkUser "alice") shownMilk typed loaded aliceTable milk)
    as (l' & st' & row' & Hrun & _ & _ & _ & _ & Hclosed & _);
    try reflexivity.
  exists l', st'. split; [|exact Hclosed].
  rewrite Hrun. clear -Hrun. vm_compute in Hrun. injection Hrun as _ _ Hdb.
  vm_compute. by rewrite Hdb.
Defined.





End MoreWitnesses.

(** ** Reading back what was written *)

Section RoundTrips.

Import Js Session System Scenario.

(** X23.  After a PATCH answered 200, a GET of the id by the same caller
    answers 200 with the very record the PATCH returned. *)
Theorem GET_after_PATCH session now key reqBody db resp db' :
  Store.PATCH session now key reqBody db = (resp, db') ->
  Store.status resp = 200 ->
  Store.GET session key db' = Store.mkResponse 200 (Store.body resp).
Proof.
  intros Hpatch Hok.
  destruct (PATCH_ok_shape session now key reqBody db resp db'
              Hpatch Hok) as (u & old & new & Hu & Hold & Hown & Hbody & -> & Hown').
  unfold Store.GET.
  rewrite Hu, (findUnique_found key _ new) by apply lookup_insert_eq.
  rewrite Hbody.
  by rewrite bool_decide_eq_false_2 by (intros Hne; apply Hne; congruence).
Qed.

Lemma GET_after_PATCH_witness :
  let renamed := Store.mkRow "t1" "Buy oat milk" None false "alice" 1 4 in
  Store.status
    (Store.PATCH alice 4 "t1"
       (Some (Store.mkPatch (Some (Store.JStr "Buy oat milk")) None None))
       aliceTable).1 = 200
  /\ Store.GET alice "t1"
       (Store.PATCH alice 4 "t1"
          (Some (Store.mkPatch (Some (Store.JStr "Buy oat milk")) None None))
          aliceTable).2
     = Store.mkResponse 200 (Store.TodoJson renamed).
Proof.
  intros renamed. split; [vm_compute; reflexivity|].
  rewrite (GET_after_PATCH alice 4 "t1"
             (Some (Store.mkPatch (Some (Store.JStr "Buy oat milk")) None None))
             aliceTable
             (Store.PATCH alice 4 "t1"
                (Some (Store.mkPatch (Some (Store.JStr "Buy oat milk")) None None))
                aliceTable).1
             (Store.PATCH alice 4 "t1"
                (Some (Store.mkPatch (Some (Store.JStr "Buy oat milk")) None None))
                aliceTable).2).
  - vm_compute. reflexivity.
  - by destruct (Store.PATCH alice 4 "t1" _ aliceTable).
  - vm_compute. reflexivity.
Defined.

(** X24.  A deletion made through the session by the owner of the row
    fulfils; the row is gone from the table and every entry with the id from
    the list, the other rows and entries staying; and a GET of the id then
    answers 404 (500 were the id one the database refuses, under which no
    row is ever stored). *)
Theorem served_delete_removes_everywhere (toISOString : Z -> string)
    env usr key st db row :
  Store.signedIn (session env) = Some usr ->
  db !! key = Some row ->
  Store.userId row = Store.user_id usr ->
  exists st',
    deleteTodo (serve toISOString env) key st db = (Fulfilled, st', delete key db)
    /\ Forall (fun todo => id todo <> key) (todos st')
    /\ (forall todo, id todo <> key -> todo ∈ todos st' <-> todo ∈ todos st)
    /\ (forall k, k <> key -> delete key db !! k = db !! k)
    /\ Store.status (Store.GET (session env) key (delete key db))
       = (if Store.hasNul key then 500 else 404).
Proof.
  intros Hu Hrow Hown. unfold deleteTodo. rewrite serve_delete.
  rewrite bool_decide_eq_true_2.
  2:{ unfold Store.DELETE. rewrite Hu, (findUnique_found _ _ _ Hrow).
      by rewrite bool_decide_eq_false_2 by (intros Hne; by apply Hne). }
  simpl. eexists. split; [reflexivity|]. simpl. unfold removeById.
  split; [|split; [|split]].
  - apply Forall_forall. intros todo Hin.
    by apply list_elem_of_filter in Hin as [? _].
  - intros todo Hid. rewrite list_elem_of_filter. split; [by intros [_ ?] | done].
  - intros k Hk. by rewrite lookup_delete_ne.
  - unfold Store.GET. rewrite Hu, findUnique_absent by apply lookup_delete_eq.
    by destruct (Store.hasNul key).
Qed.

Lemma served_delete_removes_everywhere_witness :
  exists st',
    deleteTodo (serve stamp (asAlice 6 "t3")) "t7"
      (mkState [wire stamp tea; shownMilk] false None []) twoTabsTable
    = (Fulfilled, st', delete "t7" twoTabsTable)
    /\ todos st' = [shownMilk]
    /\ delete "t7" twoTabsTable !! "t1" = Some milk.
Proof.
  destruct (served_delete_removes_everywhere stamp (asAlice 6 "t3")
              (Store.mkUser "alice") "t7"
              (mkState [wire stamp tea; shownMilk] false None []) twoTabsTable tea)
    as (st' & Hrun & _ & _ & Hothers & _); try reflexivity.
  exists st'. split; [exact Hrun|]. split.
  - clear -Hrun. vm_compute in Hrun. injection Hrun as <-. reflexivity.
  - rewrite Hothers by discriminate. reflexivity.
Defined.

End RoundTrips.

(** ** Loads and saves at work on the sample worlds *)

Section ScreenWitnesses.

Import Js Session System Scenario.

Lemma successful_load_replaces_list_witness :
  let failed :=
    mkState [] false (Some "Failed to load todos. Please try again later.") [] in
  exists st',
    refreshTodos (cached [shownMilk]) failed tt = (Fulfilled, st', tt)
    /\ todos st' = [shownMilk]
    /\ error st' = None.
Proof.
  intros failed.
  destruct (successful_load_replaces_list (cached [shownMilk]) failed tt
              [shownMilk] tt eq_refl) as ((st' & Hrun & Htodos & Herror & _) & _).
  exists st'. auto.
Defined.

Lemma handleSave_outcome_witness :
  let spaces := TodoItem.mkLocal true "   " "" false None in
  let typed := TodoItem.mkLocal true "Buy oat milk" "" false None in
  Screen.mounted loaded "t1" = true
  /\ Screen.save (serve stamp signedOut) shownMilk spaces loaded aliceTable
     = (Some (TodoItem.mkLocal true "   " "" false (Some "Title cannot be empty")),
        loaded, aliceTable)
  /\ exists st',
       Screen.save (serve stamp signedOut) shownMilk typed loaded aliceTable
       = (None, st', aliceTable)
       /\ todos st' = [shownMilk].
Proof.
  intros spaces typed.
  assert (Hmounted : Screen.mounted loaded (id shownMilk) = true)
    by (vm_compute; reflexivity).
  split; [exact Hmounted|]. split.
  - exact (proj1 (handleSave_outcome (serve stamp signedOut) shownMilk spaces
                    loaded aliceTable Hmounted) eq_refl).
  - destruct (proj2 (handleSave_outcome (serve stamp signedOut) shownMilk typed
                       loaded aliceTable Hmounted) eq_refl
                (RespondsNotOk 401) aliceTable) as (st' & Hrun & Htodos & _).
    + vm_compute. reflexivity.
    + exists st'. split; [exact Hrun | exact Htodos].
Defined.

End ScreenWitnesses.
